(** * Jira to Applens converter: the transformation pipeline of
      [data_transformer.py]

    The pipeline has four stages, run in sequence by
    [run_transformation_pipeline]: [load_source_data], [apply_transformations],
    [validate_and_clean] and [save_target_file].  The stages are embedded as
    functions over a small model of a pandas [DataFrame], in a state and
    exception monad whose state holds the file system and the log.

    What pandas and the operating system do is not part of this program.  The
    parts the stages rely on are taken as parameters of the development (the
    CSV reader on the bytes of a file, the date parser behind
    [pd.to_datetime], the spreadsheet writer); the operations on frames that
    the stages call ([rename], [dropna], column selection and assignment)
    are modelled on frames directly. *)

From Stdlib Require Import Ascii String ZArith Lia.
From stdpp Require Import base option list gmap strings pretty.

Local Open Scope string_scope.
Local Open Scope list_scope.
Local Open Scope nat_scope.
Local Open Scope stdpp_scope.

(** ** Python strings

    A [string] stands for a Python [str] whose code points are below 256;
    [ascii] is one such code point. *)

Module PyStr.

Definition code (c : ascii) : nat := nat_of_ascii c.

(** [str.isspace] on code points below 256: the ASCII white space
    U+0009..U+000D, U+001C..U+001F, U+0020, and U+0085, U+00A0. *)
Definition isspace (c : ascii) : bool :=
  let n := code c in
  ((9 <=? n) && (n <=? 13)) || ((28 <=? n) && (n <=? 32))
  || (n =? 133) || (n =? 160).

(** Upper-case letters below 256: A..Z, and U+00C0..U+00DE without the
    multiplication sign U+00D7. *)
Definition isupper (c : ascii) : bool :=
  let n := code c in
  ((65 <=? n) && (n <=? 90)) || ((192 <=? n) && (n <=? 214))
  || ((216 <=? n) && (n <=? 222)).

Definition lower_char (c : ascii) : ascii :=
  if isupper c then ascii_of_nat (code c + 32) else c.

(** [s.lower()] *)
Fixpoint lower (s : string) : string :=
  match s with
  | EmptyString => EmptyString
  | String c s' => String (lower_char c) (lower s')
  end.

Fixpoint lstrip (s : string) : string :=
  match s with
  | EmptyString => EmptyString
  | String c s' => if isspace c then lstrip s' else s
  end.

Fixpoint rstrip (s : string) : string :=
  match s with
  | EmptyString => EmptyString
  | String c s' =>
      match rstrip s' with
      | EmptyString => if isspace c then EmptyString else String c EmptyString
      | r => String c r
      end
  end.

(** [s.strip()] *)
Definition strip (s : string) : string := rstrip (lstrip s).

(** [sep.join(l)] *)
Fixpoint join (sep : string) (l : list string) : string :=
  match l with
  | [] => ""
  | [s] => s
  | s :: l' => s +:+ sep +:+ join sep l'
  end.

(** [repr(s)] for a string without quotes, backslashes or control
    characters (all the column names of the configuration are such). *)
Definition repr (s : string) : string := "'" +:+ s +:+ "'".

(** [repr(l)] for a list of such strings, which is what an f-string
    prints for it. *)
Definition repr_list (l : list string) : string :=
  "[" +:+ join ", " (repr <$> l) +:+ "]".

(** [str(n)] for a natural number *)
Definition of_nat (n : nat) : string := pretty n.

(** [needle in s] *)
Definition occurs_in (needle s : string) : Prop :=
  ∃ pre post, s = pre +:+ needle +:+ post.

(** The strings made of white space only. *)
Fixpoint all_space (s : string) : bool :=
  match s with
  | EmptyString => true
  | String c s' => isspace c && all_space s'
  end.

End PyStr.

(** ** Configuration *)

(** Python dictionaries that are iterated keep their insertion order: they
    are association lists. *)
Fixpoint dict_get {V} (d : list (string * V)) (k : string) : option V :=
  match d with
  | [] => None
  | (k', v) :: d' => if decide (k' = k) then Some v else dict_get d' k
  end.

Definition COLUMN_MAPPING : list (string * string) :=
  [ ("Issue Key", "Ticket ID");
    ("Issue Type", "Ticket Type");
    ("Updated", "Open Date");
    ("Status", "Status");
    ("Resolved", "Closed Date") ].

Definition CONSTANTS : list (string * string) :=
  [ ("Priority", "NONE");
    ("Application", "HMOF");
    ("Assignment Group", "HMH Support Group") ].

Definition FINAL_COLUMN_ORDER : list string :=
  [ "Ticket ID"; "Ticket Type"; "Open Date"; "Priority";
    "Status"; "Application"; "Assignment Group"; "Closed Date" ].

(** ** Frames *)

(** The scalars a cell holds: the missing value of a text or numeric column
    ([NaN]), the missing value of a datetime column ([NaT]), a string, an
    integer, and a timestamp in nanoseconds since the epoch. *)
Inductive cell : Type :=
  | NaN
  | NaT
  | Str (s : string)
  | Int (z : Z)
  | Timestamp (ns : Z).

Global Instance cell_eq_dec : EqDecision cell.
Proof. solve_decision. Defined.

(** [pd.isna] *)
Definition isna (c : cell) : bool :=
  match c with NaN | NaT => true | _ => false end.

Definition notna (c : cell) : bool := negb (isna c).

Abbreviation Series := (list cell).

(** A frame: the row labels and the columns in order, each with its label.
    Labels may repeat: [rename] does not check. *)
Record DataFrame : Type := mkFrame {
  index : list nat;
  columns : list (string * Series)
}.

Definition labels (df : DataFrame) : list string := (columns df).*1.

(** [len(df)] *)
Definition len (df : DataFrame) : nat := length (index df).

(** Every column has one cell per row. *)
Definition rectangular (df : DataFrame) : Prop :=
  Forall (λ c, length c.2 = len df) (columns df).

(** The Dataset of the specification maps a column name to the values of the
    column: its labels are distinct. *)
Definition Dataset (df : DataFrame) : Prop :=
  NoDup (labels df) ∧ rectangular df.

(** [col in df.columns] *)
Definition has_column (df : DataFrame) (col : string) : bool :=
  bool_decide (col ∈ labels df).

(** The columns stored under a label, in frame order. *)
Definition select (df : DataFrame) (col : string) : list Series :=
  (filter (λ c, c.1 = col) (columns df)).*2.

(** [f] applied to every column stored under [col]. *)
Definition map_column (f : Series → Series) (col : string)
    (cols : list (string * Series)) : list (string * Series) :=
  (λ c, if decide (c.1 = col) then (c.1, f c.2) else c) <$> cols.

(** [df.rename(columns=mapper)]: a label the mapper knows is replaced, the
    others stay. *)
Definition rename (mapper : string → option string) (df : DataFrame)
    : DataFrame :=
  mkFrame (index df)
          ((λ c, (default c.1 (mapper c.1), c.2)) <$> columns df).

(** [df[col] = s] for a series [s] on the index of [df]: every column
    stored under [col] is replaced; a new label is appended. *)
Definition setitem (df : DataFrame) (col : string) (s : Series) : DataFrame :=
  mkFrame (index df)
          (if has_column df col
           then map_column (λ _, s) col (columns df)
           else columns df ++ [(col, s)]).

(** The columns stored under [col] replaced by [vals], one for one in
    frame order. *)
Fixpoint put_columns (col : string) (vals : list Series)
    (cols : list (string * Series)) : list (string * Series) :=
  match cols with
  | [] => []
  | c :: cols' =>
      if decide (c.1 = col) then
        match vals with
        | v :: vals' => (c.1, v) :: put_columns col vals' cols'
        | [] => c :: put_columns col [] cols'
        end
      else c :: put_columns col vals cols'
  end.

(** [df[col] = value] for a value that has one column for each column
    stored under [col], as [df[col].fillna(...)] has. *)
Definition setitem_frame (df : DataFrame) (col : string) (vals : list Series)
    : DataFrame :=
  mkFrame (index df) (put_columns col vals (columns df)).

(** [df[col] = val] for a scalar *)
Definition setitem_scalar (df : DataFrame) (col : string) (val : cell)
    : DataFrame :=
  setitem df col (replicate (len df) val).

(** The rows a mask keeps. *)
Fixpoint keep {A} (mask : list bool) (l : list A) : list A :=
  match mask, l with
  | b :: mask', x :: l' => if b then x :: keep mask' l' else keep mask' l'
  | _, _ => []
  end.

(** The mask of [dropna(subset=[col])]: a row is kept when none of the
    columns stored under [col] is missing there. *)
Definition notna_mask (n : nat) (sel : list Series) : list bool :=
  foldr (λ s mask, zip_with andb (notna <$> s) mask) (replicate n true) sel.

Definition take_rows (mask : list bool) (df : DataFrame) : DataFrame :=
  mkFrame (keep mask (index df))
          ((λ c, (c.1, keep mask c.2)) <$> columns df).

(** [s.fillna(value)]: every missing cell is replaced by the value, in a
    datetime column too, which holds other objects from then on. *)
Definition fillna (value : cell) (s : Series) : Series :=
  (λ c, if isna c then value else c) <$> s.

(** [df.head(n)], the rows [read_csv] keeps under [nrows=n] *)
Definition head (n : nat) (df : DataFrame) : DataFrame :=
  mkFrame (take n (index df)) ((λ c, (c.1, take n c.2)) <$> columns df).

(** ** Exceptions, results, the log *)

(** The exceptions of the pipeline.  All are subclasses of [Exception];
    [OtherError] stands for any further one that pandas or the operating
    system raise (a parser error, an empty file, a full disk).  [KeyError]
    carries the text of its argument as [str(e)] prints it. *)
Inductive exn : Type :=
  | FileNotFoundError (msg : string)
  | UnicodeDecodeError (msg : string)
  | ValueError (msg : string)
  | KeyError (arg : string)
  | OtherError (msg : string).

(** [str(e)] *)
Definition str_exn (e : exn) : string :=
  match e with
  | FileNotFoundError msg | UnicodeDecodeError msg | ValueError msg
  | KeyError msg | OtherError msg => msg
  end.

Definition is_KeyError (e : exn) : bool :=
  match e with KeyError _ => true | _ => false end.

Inductive result (A : Type) : Type :=
  | Ok (a : A)
  | Raise (e : exn).
Arguments Ok {A} a.
Arguments Raise {A} e.

Inductive level : Type := INFO | WARNING | ERROR | CRITICAL.

Inductive encoding : Type := utf_8 | latin1.

(** ** Pure parts of pandas *)

(** [df[col]]: the columns stored under the label, a [KeyError] when there
    is none. *)
Definition getitem (df : DataFrame) (col : string) : result (list Series) :=
  match select df col with
  | [] => Raise (KeyError (PyStr.repr col))
  | sel => Ok sel
  end.

(** [df[keys]] for a list of labels: for each key in turn the columns stored
    under it; a [KeyError] when a key labels no column. *)
Definition getitem_list (df : DataFrame) (keys : list string)
    : result DataFrame :=
  match filter (λ k, k ∉ labels df) keys with
  | [] => Ok (mkFrame (index df)
                (mjoin ((λ k, filter (λ c, c.1 = k) (columns df)) <$> keys)))
  | missing => Raise (KeyError (PyStr.repr_list missing +:+ " not in index"))
  end.

(** [df.dropna(subset=[col])] *)
Definition dropna (df : DataFrame) (col : string) : result DataFrame :=
  match select df col with
  | [] => Raise (KeyError (PyStr.repr_list [col]))
  | sel => Ok (take_rows (notna_mask (len df) sel) df)
  end.

(** What [read_csv] keeps of the parsed file under [usecols]: the listed
    columns, in the order of the file; a [ValueError] when a listed name is
    not in the header. *)
Definition use_columns (usecols : option (list string)) (df : DataFrame)
    : result DataFrame :=
  match usecols with
  | None => Ok df
  | Some names =>
      match filter (λ k, k ∉ labels df) names with
      | [] => Ok (mkFrame (index df)
                          (filter (λ c, c.1 ∈ names) (columns df)))
      | missing =>
          Raise (ValueError
            ("Usecols do not match columns, columns expected but not found: "
             +:+ PyStr.repr_list missing))
      end
  end.

(** ** The pipeline *)

Section Pipeline.

(** The contents of a file. *)
Context {bytes : Type}.

(** The CSV parser of pandas on the contents of a file, under an
    encoding: the whole table, or the exception it raises.  Reading the
    header only ([nrows=0]) and reading some columns ([usecols]) are taken
    from this one parse. *)
Variable read_csv_bytes : encoding → bytes → result DataFrame.

(** The date parser behind [pd.to_datetime(..., errors='coerce')]: the
    timestamp of a cell that is present, within its column; [None] when
    the cell does not parse. *)
Variable parse_datetime : Series → cell → option Z.

(** The spreadsheet writer behind [to_excel(path, index=False)]: the bytes
    written to [path] for the columns of a frame, or the exception
    raised. *)
Variable excel_bytes : string → list (string * Series) → result bytes.

Record World : Type := mkWorld {
  files : gmap string bytes;
  log : list (level * string)
}.

(** Computations that read and write the world and may raise. *)
Definition M (A : Type) : Type := World → result A * World.

#[global] Instance M_ret : MRet M := λ A a w, (Ok a, w).

#[global] Instance M_bind : MBind M := λ A B f m w,
  match m w with
  | (Ok a, w') => f a w'
  | (Raise e, w') => (Raise e, w')
  end.

Definition raise {A} (e : exn) : M A := λ w, (Raise e, w).

Definition lift {A} (r : result A) : M A := λ w, (r, w).

(** [try: body except Exception as e: handler e] *)
Definition try_except {A} (body : M A) (handler : exn → M A) : M A := λ w,
  match body w with
  | (Ok a, w') => (Ok a, w')
  | (Raise e, w') => handler e w'
  end.

(** [try: body except UnicodeDecodeError: handler] *)
Definition except_UnicodeDecodeError {A} (body handler : M A) : M A :=
  try_except body
    (λ e, match e with UnicodeDecodeError _ => handler | _ => raise e end).

Fixpoint for_each {A S} (l : list A) (body : S → A → M S) (s : S) : M S :=
  match l with
  | [] => mret s
  | x :: l' => s' ← body s x; for_each l' body s'
  end.

(** The world after a message is logged. *)
Definition logged (lvl : level) (msg : string) (w : World) : World :=
  mkWorld (files w) (log w ++ [(lvl, msg)]).

(** The logger appends to the log; writing a message is taken not to
    fail. *)
Definition logger (lvl : level) (msg : string) : M unit := λ w,
  (Ok (), logged lvl msg w).

(** [os.path.exists]; the file system holds files only, no directories. *)
Definition os_path_exists (file_path : string) : M bool := λ w,
  (Ok (bool_decide (is_Some (files w !! file_path))), w).

(** [pd.read_csv(file_path, usecols=..., nrows=..., encoding=...)] *)
Definition read_csv (file_path : string) (usecols : option (list string))
    (nrows : option nat) (enc : encoding) : M DataFrame := λ w,
  match files w !! file_path with
  | None => (Raise (FileNotFoundError file_path), w)
  | Some b =>
      match read_csv_bytes enc b with
      | Raise e => (Raise e, w)
      | Ok parsed =>
          match use_columns usecols parsed with
          | Raise e => (Raise e, w)
          | Ok df => (Ok (from_option (λ n, head n df) df nrows), w)
          end
      end
  end.

(** [df.to_excel(output_path, index=False)]: the columns go to the writer
    without the index; a write that fails leaves the files as they are. *)
Definition to_excel (df : DataFrame) (output_path : string) : M unit := λ w,
  match excel_bytes output_path (columns df) with
  | Ok b => (Ok (), mkWorld (<[output_path := b]> (files w)) (log w))
  | Raise e => (Raise e, w)
  end.

(** [pd.to_datetime(s, errors='coerce')] on a series *)
Definition to_datetime_series (s : Series) : Series :=
  (λ c, if isna c then NaT
        else match parse_datetime s c with
             | Some ns => Timestamp ns
             | None => NaT
             end) <$> s.

(** [pd.to_datetime(df[col], errors='coerce')]: [df[col]] is a series when
    one column has the label; on the frame of several columns under one
    label pandas raises. *)
Definition to_datetime (sel : list Series) : result Series :=
  match sel with
  | [s] => Ok (to_datetime_series s)
  | _ => Raise (ValueError "cannot assemble with duplicate keys")
  end.

(** *** Phase 1 *)

(** [{col.lower().strip(): col for col in actual_file_columns}] *)
Definition header_lookup (actual_file_columns : list string)
    : gmap string string :=
  foldl (λ m col, <[PyStr.strip (PyStr.lower col) := col]> m)
        ∅ actual_file_columns.

(** One turn of the loop over [COLUMN_MAPPING.keys()], on
    [(usecols_actual, normalization_map, missing_cols)]. *)
Definition resolve_column (actual_col_map : gmap string string)
    (st : list string * gmap string string * list string)
    (required_col : string)
    : list string * gmap string string * list string :=
  let '(usecols_actual, normalization_map, missing_cols) := st in
  let req_lower := PyStr.strip (PyStr.lower required_col) in
  match actual_col_map !! req_lower with
  | Some actual_name =>
      (usecols_actual ++ [actual_name],
       <[actual_name := required_col]> normalization_map,
       missing_cols)
  | None =>
      (usecols_actual, normalization_map, missing_cols ++ [required_col])
  end.

Definition load_source_data (file_path : string) : M DataFrame :=
  logger INFO ("Phase 1: Reading input CSV file from " +:+ file_path);;
  found ← os_path_exists file_path;
  if negb found then
    logger ERROR ("File not found: " +:+ file_path);;
    raise (FileNotFoundError ("Input file does not exist: " +:+ file_path))
  else
    try_except
      (header_df ← except_UnicodeDecodeError
                     (read_csv file_path None (Some 0) utf_8)
                     (read_csv file_path None (Some 0) latin1);
       let actual_file_columns := labels header_df in
       let actual_col_map := header_lookup actual_file_columns in
       let '(usecols_actual, normalization_map, missing_cols) :=
         foldl (resolve_column actual_col_map) ([], ∅, [])
               (COLUMN_MAPPING.*1) in
       if bool_decide (missing_cols ≠ []) then
         let error_msg :=
           "Missing required columns: " +:+ PyStr.repr_list missing_cols in
         logger ERROR error_msg;;
         raise (ValueError error_msg)
       else
         df ← except_UnicodeDecodeError
                (read_csv file_path (Some usecols_actual) None utf_8)
                (logger WARNING "UTF-8 decode failed, retrying with latin1.";;
                 read_csv file_path (Some usecols_actual) None latin1);
         let df := rename (λ l, normalization_map !! l) df in
         logger INFO ("Successfully loaded " +:+ PyStr.of_nat (len df)
                      +:+ " rows.");;
         mret df)
      (λ e, logger CRITICAL ("Failed to read CSV file: " +:+ str_exn e);;
            raise e).

(** *** Phase 2 *)

Definition apply_transformations (df : DataFrame) : M DataFrame :=
  logger INFO "Phase 2: Applying transformations...";;
  let df_transformed := rename (dict_get COLUMN_MAPPING) df in
  let df_transformed :=
    foldl (λ d kv, setitem_scalar d kv.1 (Str kv.2))
          df_transformed CONSTANTS in
  mret df_transformed.

(** *** Phase 3 *)

Definition validate_and_clean (df : DataFrame) : M DataFrame :=
  logger INFO "Phase 3: Validating data...";;
  let initial_count := len df in
  df ← lift (dropna df "Ticket ID");
  (if bool_decide (len df < initial_count) then
     logger WARNING ("Dropped " +:+ PyStr.of_nat (initial_count - len df)
                     +:+ " rows due to missing Ticket IDs.")
   else mret ());;
  let date_cols := ["Open Date"; "Closed Date"] in
  df ← for_each date_cols
         (λ df col,
            if has_column df col then
              sel ← lift (getitem df col);
              s ← lift (to_datetime sel);
              mret (setitem df col s)
            else mret df)
         df;
  closed ← lift (getitem df "Closed Date");
  let df := setitem_frame df "Closed Date" (fillna (Str "") <$> closed) in
  logger INFO "Validation complete.";;
  mret df.

(** *** Phase 4 *)

Definition save_target_file (df : DataFrame) (output_path : string)
    : M bool :=
  logger INFO ("Phase 4: Writing output to " +:+ output_path);;
  try_except
    (df_final ← lift (getitem_list df FINAL_COLUMN_ORDER);
     to_excel df_final output_path;;
     logger INFO "SUCCESS: Transformation complete.";;
     mret true)
    (λ e, logger ERROR ("Failed to write output file: " +:+ str_exn e);;
          mret false).

(** *** The pipeline *)

Definition run_transformation_pipeline (input_path output_path : string)
    : M bool :=
  try_except
    (df ← load_source_data input_path;
     df ← apply_transformations df;
     df ← validate_and_clean df;
     success ← save_target_file df output_path;
     mret success)
    (λ e, logger ERROR ("Pipeline failed: " +:+ str_exn e);;
          mret false).

End Pipeline.

(** ** Direct execution

    The block under [if __name__ == "__main__"].  What it prints is kept
    beside the world, one entry for each call of [print]. *)

Section Direct_execution.

Context {bytes : Type}.
Variable read_csv_bytes : encoding → bytes → result DataFrame.
Variable parse_datetime : Series → cell → option Z.
Variable excel_bytes : string → list (string * Series) → result bytes.

Record Console : Type := mkConsole {
  world : World (bytes := bytes);
  stdout : list string
}.

Definition print (text : string) (c : Console) : Console :=
  mkConsole (world c) (stdout c ++ [text]).

Definition INPUT_FILE : string := "Jira_Dump_Input.csv".
Definition OUTPUT_FILE : string := "Applens_Upload_Output.xlsx".

(** The character a [\n] in a string literal stands for. *)
Definition newline : string := String "010"%char "".

Definition main (c : Console) : result unit * Console :=
  let c := print "--- Starting Direct Execution Mode ---" c in
  match os_path_exists INPUT_FILE (world c) with
  | (Raise e, w) => (Raise e, mkConsole w (stdout c))
  | (Ok true, w) =>
      let c := print ("Processing file: " +:+ INPUT_FILE)
                 (mkConsole w (stdout c)) in
      match run_transformation_pipeline read_csv_bytes parse_datetime
              excel_bytes INPUT_FILE OUTPUT_FILE (world c) with
      | (Raise e, w) => (Raise e, mkConsole w (stdout c))
      | (Ok success, w) =>
          let c := mkConsole w (stdout c) in
          if success then
            (Ok (), print (newline +:+ "SUCCESS! Output saved to: "
                           +:+ OUTPUT_FILE) c)
          else
            (Ok (), print (newline +:+ "FAILURE. Please check the logs.") c)
      end
  | (Ok false, w) =>
      (Ok (), print (newline +:+ "NOTE: No input file '" +:+ INPUT_FILE
                     +:+ "' found.") (mkConsole w (stdout c)))
  end.

End Direct_execution.

(** ** The logger's setup

    [logging] keeps one logger for each name.  A logger has a level, unset
    at first, and its handlers. *)

Inductive handler : Type :=
  | StreamHandler (formatter : string)
  | FileHandler (filename : string) (delay : bool) (formatter : string).

Record Logger : Type := mkLogger {
  logger_level : option level;
  handlers : list handler
}.

(** [logging.getLogger(name)]: the logger of that name, made on the first
    call. *)
Definition getLogger (name : string) (registry : gmap string Logger)
    : Logger :=
  default (mkLogger None []) (registry !! name).

(** [logger.setLevel(lvl)] *)
Definition setLevel (lvl : level) (logger : Logger) : Logger :=
  mkLogger (Some lvl) (handlers logger).

(** [logger.addHandler(h)] for a handler made on the spot, which the
    logger cannot have yet. *)
Definition addHandler (h : handler) (logger : Logger) : Logger :=
  mkLogger (logger_level logger) (handlers logger ++ [h]).

(** [setup_logger]: the registry after the call; the logger returned is the
    one it has under [name]. *)
Definition setup_logger (name : string) (registry : gmap string Logger)
    : gmap string Logger :=
  let logger := getLogger name registry in
  let logger := setLevel INFO logger in
  let logger :=
    match handlers logger with
    | [] =>
        let formatter := "%(asctime)s - %(levelname)s - %(message)s" in
        let logger := addHandler (StreamHandler formatter) logger in
        addHandler (FileHandler "applens_conversion.log" true formatter)
          logger
    | _ => logger
    end in
  <[name := logger]> registry.

(** ** A concrete environment

    A small instance of the parameters, on which the pipeline runs inside
    Rocq: text files in comma-separated form without quoting, ISO dates, and
    a writer that stores the sheet it is given. *)

Module Sample.

Inductive file : Type :=
  | Text (s : string)
  | Workbook (sheet : list (string * Series)).

(** UTF-8 decoding of text whose code points are below 256: a byte below
    128 stands for itself, C2 and C3 start a two-byte sequence, and any
    other byte is an error. *)
Fixpoint decode_utf8 (s : string) : option string :=
  match s with
  | EmptyString => Some EmptyString
  | String c s' =>
      let n := PyStr.code c in
      if n <? 128 then String c <$> decode_utf8 s'
      else
        match s' with
        | String c2 s'' =>
            let m := PyStr.code c2 in
            if ((n =? 194) || (n =? 195)) && (128 <=? m) && (m <=? 191)
            then String (ascii_of_nat ((n - 192) * 64 + (m - 128)))
                   <$> decode_utf8 s''
            else None
        | EmptyString => None
        end
  end.

(** [s.split(sep)] for a one-character separator *)
Fixpoint split (sep : ascii) (s : string) : list string :=
  match s with
  | EmptyString => [EmptyString]
  | String c s' =>
      if decide (c = sep) then EmptyString :: split sep s'
      else match split sep s' with
           | w :: ws => String c w :: ws
           | [] => [String c EmptyString]
           end
  end.

Definition field (s : string) : cell :=
  if decide (s = "") then NaN else Str s.

(** The table of a text: the first line is the header, every further
    line that is not empty is a row. *)
Definition parse_table (text : string) : result DataFrame :=
  match filter (λ l, l ≠ "") (split "010"%char text) with
  | [] => Raise (OtherError "No columns to parse from file")
  | header :: lines =>
      let names := split ","%char header in
      let rows := split ","%char <$> lines in
      if forallb (λ r, length r =? length names) rows then
        Ok (mkFrame (seq 0 (length rows))
              (imap (λ j name,
                       (name, (λ r, field (default "" (r !! j))) <$> rows))
                    names))
      else Raise (OtherError "Error tokenizing data")
  end.

Definition read_csv_bytes (enc : encoding) (b : file) : result DataFrame :=
  match b, enc with
  | Text s, utf_8 =>
      match decode_utf8 s with
      | Some text => parse_table text
      | None => Raise (UnicodeDecodeError "invalid start byte")
      end
  | Text s, latin1 => parse_table s
  | Workbook _, utf_8 => Raise (UnicodeDecodeError "invalid start byte")
  | Workbook _, latin1 => Raise (OtherError "Error tokenizing data")
  end.

Definition digit (c : ascii) : option Z :=
  let n := PyStr.code c in
  if (48 <=? n) && (n <=? 57) then Some (Z.of_nat (n - 48)) else None.

Fixpoint number (acc : Z) (s : list ascii) : option Z :=
  match s with
  | [] => Some acc
  | c :: s' => d ← digit c; number (10 * acc + d)%Z s'
  end.

(** Days from 1970-01-01 to a date of the proleptic Gregorian calendar. *)
Definition days_from_civil (y m d : Z) : Z :=
  let y := (if m <=? 2 then y - 1 else y)%Z in
  let era := (y / 400)%Z in
  let yoe := (y - era * 400)%Z in
  let doy := ((153 * (if m >? 2 then m - 3 else m + 9) + 2) / 5 + d - 1)%Z in
  let doe := (yoe * 365 + yoe / 4 - yoe / 100 + doy)%Z in
  (era * 146097 + doe - 719468)%Z.

(** Dates written [YYYY-MM-DD], at midnight. *)
Definition parse_datetime (_ : Series) (c : cell) : option Z :=
  match c with
  | Str s =>
      match list_ascii_of_string s with
      | [y1; y2; y3; y4; "-"%char; m1; m2; "-"%char; d1; d2] =>
          y ← number 0 [y1; y2; y3; y4];
          m ← number 0 [m1; m2];
          d ← number 0 [d1; d2];
          if ((1 <=? m) && (m <=? 12) && (1 <=? d) && (d <=? 31))%Z
          then Some (days_from_civil y m d * 86400000000000)%Z
          else None
      | _ => None
      end
  | Timestamp ns => Some ns
  | _ => None
  end.

(** The writer stores the sheet; it fails on the empty path. *)
Definition excel_bytes (output_path : string) (sheet : list (string * Series))
    : result file :=
  if decide (output_path = "")
  then Raise (OtherError "No such file or directory")
  else Ok (Workbook sheet).

Definition run (input_path output_path : string) : M bool :=
  run_transformation_pipeline read_csv_bytes parse_datetime excel_bytes
    input_path output_path.


Definition disk (content : file) : World :=
  mkWorld {["in.csv" := content]} [].

Definition eol : string := String "010"%char "".

(** An export of three tickets: a further column, header names in several
    letter cases and with white space around them, a ticket without key,
    and dates that do not parse. *)
Definition tickets_csv : file :=
  Text ("Summary, Issue key ,ISSUE TYPE,updated,Status ,resolved" +:+ eol
        +:+ "First,ABC-1,Bug,2024-01-01,Open," +:+ eol
        +:+ "Second,,Task,2024-01-02,Open," +:+ eol
        +:+ "Third,ABC-3,Bug,last week,Done,soon" +:+ eol).

(** The table of [tickets_csv]. *)
Definition tickets_table : DataFrame :=
  mkFrame [0; 1; 2]
    [ ("Summary", [Str "First"; Str "Second"; Str "Third"]);
      (" Issue key ", [Str "ABC-1"; NaN; Str "ABC-3"]);
      ("ISSUE TYPE", [Str "Bug"; Str "Task"; Str "Bug"]);
      ("updated", [Str "2024-01-01"; Str "2024-01-02"; Str "last week"]);
      ("Status ", [Str "Open"; Str "Open"; Str "Done"]);
      ("resolved", [NaN; NaN; Str "soon"]) ].

(** The frame of the loader for it, *)
Definition tickets_loaded : DataFrame :=
  mkFrame [0; 1; 2]
    [ ("Issue Key", [Str "ABC-1"; NaN; Str "ABC-3"]);
      ("Issue Type", [Str "Bug"; Str "Task"; Str "Bug"]);
      ("Updated", [Str "2024-01-01"; Str "2024-01-02"; Str "last week"]);
      ("Status", [Str "Open"; Str "Open"; Str "Done"]);
      ("Resolved", [NaN; NaN; Str "soon"]) ].

(** the frame of the mapper, *)
Definition tickets_mapped : DataFrame :=
  mkFrame [0; 1; 2]
    [ ("Ticket ID", [Str "ABC-1"; NaN; Str "ABC-3"]);
      ("Ticket Type", [Str "Bug"; Str "Task"; Str "Bug"]);
      ("Open Date", [Str "2024-01-01"; Str "2024-01-02"; Str "last week"]);
      ("Status", [Str "Open"; Str "Open"; Str "Done"]);
      ("Closed Date", [NaN; NaN; Str "soon"]);
      ("Priority", [Str "NONE"; Str "NONE"; Str "NONE"]);
      ("Application", [Str "HMOF"; Str "HMOF"; Str "HMOF"]);
      ("Assignment Group",
       [Str "HMH Support Group"; Str "HMH Support Group";
        Str "HMH Support Group"]) ].

(** and the frame of the cleaner. *)
Definition tickets_cleaned : DataFrame :=
  mkFrame [0; 2]
    [ ("Ticket ID", [Str "ABC-1"; Str "ABC-3"]);
      ("Ticket Type", [Str "Bug"; Str "Bug"]);
      ("Open Date", [Timestamp 1704067200000000000; NaT]);
      ("Status", [Str "Open"; Str "Done"]);
      ("Closed Date", [Str ""; Str ""]);
      ("Priority", [Str "NONE"; Str "NONE"]);
      ("Application", [Str "HMOF"; Str "HMOF"]);
      ("Assignment Group",
       [Str "HMH Support Group"; Str "HMH Support Group"]) ].

(** A file without the columns "Status" and "Resolved". *)
Definition short_csv : file :=
  Text ("issue key,Issue Type,UPDATED" +:+ eol
        +:+ "ABC-1,Bug,2024-01-01" +:+ eol).

(** A frame of the mapper's making that never had a column "Resolved". *)
Definition unresolved : DataFrame :=
  mkFrame [0]
    [ ("Issue Key", [Str "ABC-1"]); ("Issue Type", [Str "Bug"]);
      ("Updated", [Str "2024-01-01"]); ("Status", [Str "Open"]) ].

Definition no_files : World (bytes := file) := mkWorld ∅ [].

(** The minimal file with a status written in Latin-1: the byte E9 alone
    is no UTF-8. *)
Definition latin1_csv : file :=
  Text ("Issue Key,Issue Type,Updated,Status,Resolved" +:+ eol
        +:+ "ABC-1,Bug,2024-01-01,Ferm" +:+ String "233"%char "" +:+ ","
        +:+ eol).

(** A file with nothing in it. *)
Definition empty_csv : file := Text "".

(** A file with two columns for the status. *)
Definition two_status_csv : file :=
  Text ("Issue Key,Issue Type,Updated,Status,Resolved,STATUS" +:+ eol
        +:+ "ABC-1,Bug,2024-01-01,Open,,Closed" +:+ eol).

Definition two_status_table : DataFrame :=
  mkFrame [0]
    [ ("Issue Key", [Str "ABC-1"]); ("Issue Type", [Str "Bug"]);
      ("Updated", [Str "2024-01-01"]); ("Status", [Str "Open"]);
      ("Resolved", [NaN]); ("STATUS", [Str "Closed"]) ].

(** The three tickets without the summary, the columns in another order. *)
Definition tickets_reordered_csv : file :=
  Text ("RESOLVED,status,Updated,issue type,issue key" +:+ eol
        +:+ ",Open,2024-01-01,Bug,ABC-1" +:+ eol
        +:+ ",Open,2024-01-02,Task," +:+ eol
        +:+ "soon,Done,last week,Bug,ABC-3" +:+ eol).

Definition tickets_reordered_table : DataFrame :=
  mkFrame [0; 1; 2]
    [ ("RESOLVED", [NaN; NaN; Str "soon"]);
      ("status", [Str "Open"; Str "Open"; Str "Done"]);
      ("Updated", [Str "2024-01-01"; Str "2024-01-02"; Str "last week"]);
      ("issue type", [Str "Bug"; Str "Task"; Str "Bug"]);
      ("issue key", [Str "ABC-1"; NaN; Str "ABC-3"]) ].

(** A frame that holds the final columns of [tickets_cleaned] under another
    index, in another order and beside a further column. *)
Definition tickets_shuffled : DataFrame :=
  mkFrame [7; 9]
    [ ("Closed Date", [Str ""; Str ""]);
      ("Summary", [Str "First"; Str "Third"]);
      ("Assignment Group",
       [Str "HMH Support Group"; Str "HMH Support Group"]);
      ("Application", [Str "HMOF"; Str "HMOF"]);
      ("Status", [Str "Open"; Str "Done"]);
      ("Priority", [Str "NONE"; Str "NONE"]);
      ("Open Date", [Timestamp 1704067200000000000; NaT]);
      ("Ticket Type", [Str "Bug"; Str "Bug"]);
      ("Ticket ID", [Str "ABC-1"; Str "ABC-3"]) ].

(** A world with the file of the direct execution. *)
Definition dump_disk (content : file) : World :=
  mkWorld {["Jira_Dump_Input.csv" := content]} [].

End Sample.

(** ** Vocabulary of the statements *)

(** A column name as the loader compares it. *)
Definition normalize (s : string) : string := PyStr.strip (PyStr.lower s).

(** What the loader reads of the contents of a file: the parse under UTF-8,
    and the parse under Latin-1 when UTF-8 decoding fails. *)
Definition decode_csv {bytes}
    (read_csv_bytes : encoding → bytes → result DataFrame) (b : bytes)
    : result DataFrame :=
  match read_csv_bytes utf_8 b with
  | Raise (UnicodeDecodeError _) => read_csv_bytes latin1 b
  | r => r
  end.

(** The required columns that no name of a header matches. *)
Definition missing_columns (header : list string) : list string :=
  filter (λ r, normalize r ∉ normalize <$> header) (COLUMN_MAPPING.*1).

(** The renames the loader records: the actual name of each required column
    that the header has, to the required name. *)
Definition normalization (header : list string) : gmap string string :=
  foldl (λ n r, match header_lookup header !! normalize r with
                | Some a => <[a := r]> n
                | None => n
                end) ∅ (COLUMN_MAPPING.*1).

(** The actual names of the required columns that the header has. *)
Definition resolved (header : list string) : list string :=
  omap (λ r, header_lookup header !! normalize r) (COLUMN_MAPPING.*1).

(** The frame the loader returns for the table of a file that has every
    required column. *)
Definition loaded_frame (t : DataFrame) : DataFrame :=
  rename (λ l, normalization (labels t) !! l)
    (mkFrame (index t)
       (filter (λ c, c.1 ∈ resolved (labels t)) (columns t))).



(** The columns of the mapper's frame, for a frame of [n] rows whose labels
    are required names: the renamed columns, then the constants. *)
Definition mapped_columns (n : nat) (cols : list (string * Series))
    : list (string * Series) :=
  ((λ c, (default c.1 (dict_get COLUMN_MAPPING c.1), c.2)) <$> cols)
  ++ ((λ kv, (kv.1, replicate n (Str kv.2))) <$> CONSTANTS).

(** A header name and a required name are the same column for the loader
    when their normalized forms agree. *)
Definition same_name (h r : string) : Prop := normalize h = normalize r.

(** [h] is the name [r] in some letter case, with white space around it. *)
Definition variant_of (r h : string) : Prop :=
  ∃ pre body post,
    h = pre +:+ body +:+ post
    ∧ PyStr.all_space pre = true ∧ PyStr.all_space post = true
    ∧ PyStr.lower body = PyStr.lower r.


(** The rows of a column (or of the index) whose key is present. *)
Definition rows_with_key {A} (keys : Series) (l : list A) : list A :=
  (filter (λ p, isna p.1 = false) (zip keys l)).*2.

(** What the loader returns, from what the file system has at the path. *)
Definition loader_result {bytes}
    (read_csv_bytes : encoding → bytes → result DataFrame)
    (file_path : string) (content : option bytes) : result DataFrame :=
  match content with
  | None =>
      Raise (FileNotFoundError ("Input file does not exist: " +:+ file_path))
  | Some b =>
      match decode_csv read_csv_bytes b with
      | Raise e => Raise e
      | Ok t =>
          match missing_columns (labels t) with
          | [] => Ok (loaded_frame t)
          | missing =>
              Raise (ValueError ("Missing required columns: "
                                 +:+ PyStr.repr_list missing))
          end
      end
  end.


(** A column after cleaning, for the mask of the rows that stay: the two
    date columns are coerced, and the closing date is blank where it is
    missing. *)
Definition cleaned_column (parse_datetime : Series → cell → option Z)
    (mask : list bool) (c : string * Series) : string * Series :=
  let s := keep mask c.2 in
  (c.1,
   if decide (c.1 = "Closed Date")
   then fillna (Str "") (to_datetime_series parse_datetime s)
   else if decide (c.1 = "Open Date")
   then to_datetime_series parse_datetime s
   else s).

(** * Properties *)

(** ** Strings *)

Section String_facts.

Implicit Types (s x : string) (l : list string).

Lemma append_cons c s1 s2 : String c s1 +:+ s2 = String c (s1 +:+ s2).
Proof. reflexivity. Qed.

Lemma append_nil_l s : "" +:+ s = s.
Proof. reflexivity. Qed.

Lemma append_assoc s1 s2 s3 : (s1 +:+ s2) +:+ s3 = s1 +:+ s2 +:+ s3.
Proof.
  induction s1 as [|c s1 IH]; [done|]. by rewrite !append_cons, IH.
Qed.

Lemma append_nil_r s : s +:+ "" = s.
Proof. induction s as [|c s IH]; [done|]. by rewrite append_cons, IH. Qed.

Lemma occurs_in_refl x : PyStr.occurs_in x x.
Proof. exists "", "". by rewrite append_nil_l, append_nil_r. Qed.

Lemma occurs_in_append_l x p s :
  PyStr.occurs_in x s → PyStr.occurs_in x (p +:+ s).
Proof.
  intros (pre & post & ->). exists (p +:+ pre), post.
  by rewrite append_assoc.
Qed.

Lemma occurs_in_append_r x s q :
  PyStr.occurs_in x s → PyStr.occurs_in x (s +:+ q).
Proof.
  intros (pre & post & ->). exists pre, (post +:+ q).
  by rewrite !append_assoc.
Qed.

Lemma occurs_in_join sep l x : x ∈ l → PyStr.occurs_in x (PyStr.join sep l).
Proof.
  induction l as [|y l IH]; [by intros ?%elem_of_nil|].
  intros [->|Hin]%elem_of_cons.
  - destruct l; [apply occurs_in_refl|].
    apply occurs_in_append_r, occurs_in_refl.
  - destruct l as [|z l]; [by apply elem_of_nil in Hin|].
    change (PyStr.join sep (y :: z :: l))
      with (y +:+ sep +:+ PyStr.join sep (z :: l)).
    by apply occurs_in_append_l, occurs_in_append_l, IH.
Qed.

(** Every element of a list is printed in [repr] of the list. *)
Lemma occurs_in_repr_list l x :
  x ∈ l → PyStr.occurs_in (PyStr.repr x) (PyStr.repr_list l).
Proof.
  intros Hin. unfold PyStr.repr_list.
  apply occurs_in_append_l, occurs_in_append_r, occurs_in_join.
  by apply list_elem_of_fmap_2.
Qed.

Lemma isspace_lower_char c :
  PyStr.isspace (PyStr.lower_char c) = PyStr.isspace c.
Proof. by destruct c as [[] [] [] [] [] [] [] []]. Qed.

Lemma lower_append s1 s2 :
  PyStr.lower (s1 +:+ s2) = PyStr.lower s1 +:+ PyStr.lower s2.
Proof.
  induction s1 as [|c s1 IH]; [done|].
  rewrite append_cons. simpl. by rewrite IH.
Qed.

Lemma all_space_lower s : PyStr.all_space (PyStr.lower s) = PyStr.all_space s.
Proof.
  induction s as [|c s IH]; [done|]. simpl.
  by rewrite isspace_lower_char, IH.
Qed.

Lemma lstrip_all_space s : PyStr.all_space s = true → PyStr.lstrip s = "".
Proof.
  induction s as [|c s IH]; [done|]. simpl.
  intros [Hc Hs]%andb_true_iff. rewrite Hc. auto.
Qed.

Lemma rstrip_all_space s : PyStr.all_space s = true → PyStr.rstrip s = "".
Proof.
  induction s as [|c s IH]; [done|]. simpl.
  intros [Hc Hs]%andb_true_iff. by rewrite IH, Hc.
Qed.

Lemma lstrip_append s post :
  PyStr.lstrip (s +:+ post)
  = if PyStr.all_space s then PyStr.lstrip post else PyStr.lstrip s +:+ post.
Proof.
  induction s as [|c s IH]; [done|].
  rewrite append_cons. simpl. destruct (PyStr.isspace c); [apply IH|done].
Qed.

Lemma rstrip_append s post :
  PyStr.all_space post = true → PyStr.rstrip (s +:+ post) = PyStr.rstrip s.
Proof.
  intros Hpost. induction s as [|c s IH]; [by apply rstrip_all_space|].
  rewrite append_cons. simpl. by rewrite IH.
Qed.

(** White space around a string does not change what [strip] returns. *)
Lemma strip_surrounded pre body post :
  PyStr.all_space pre = true → PyStr.all_space post = true →
  PyStr.strip (pre +:+ body +:+ post) = PyStr.strip body.
Proof.
  intros Hpre Hpost. unfold PyStr.strip.
  rewrite lstrip_append, Hpre, lstrip_append.
  destruct (PyStr.all_space body) eqn:Hbody.
  - by rewrite !lstrip_all_space.
  - by apply rstrip_append.
Qed.

(** The loader takes a name in any letter case, with white space around
    it, for the required name. *)
Lemma variant_same_name r h : variant_of r h → same_name h r.
Proof.
  intros (pre & body & post & -> & Hpre & Hpost & Hbody).
  unfold same_name, normalize.
  rewrite !lower_append, strip_surrounded, Hbody;
    by rewrite ?all_space_lower.
Qed.

End String_facts.

(** ** The monad *)

Section Monad_facts.

Context {bytes : Type}.
Implicit Types w : World (bytes := bytes).

Lemma bind_Ok {A B} (m : M A) (f : A → M B) w a w' :
  m w = (Ok a, w') → (m ≫= f) w = f a w'.
Proof. unfold mbind, M_bind. by intros ->. Qed.

Lemma bind_Raise {A B} (m : M A) (f : A → M B) w e w' :
  m w = (Raise e, w') → (m ≫= f) w = (Raise e, w').
Proof. unfold mbind, M_bind. by intros ->. Qed.

Lemma logger_seq {B} lvl msg (k : M B) w :
  (logger lvl msg ;; k) w = k (logged lvl msg w).
Proof. reflexivity. Qed.

Lemma lift_bind {A B} (r : result A) (f : A → M B) w :
  (lift r ≫= f) w = match r with Ok a => f a w | Raise e => (Raise e, w) end.
Proof. by destruct r. Qed.

Lemma lift_Ok_bind {A B} (a : A) (f : A → M (bytes := bytes) B) :
  lift (Ok a) ≫= f = f a.
Proof. reflexivity. Qed.

Lemma mret_bind {A B} (a : A) (f : A → M (bytes := bytes) B) :
  mret a ≫= f = f a.
Proof. reflexivity. Qed.

Lemma files_logged lvl msg w : files (logged lvl msg w) = files w.
Proof. reflexivity. Qed.






End Monad_facts.

(** ** Frames *)

Section Frame_facts.

Implicit Types (cols : list (string * Series)) (df : DataFrame).

Lemma keep_rows_with_key {A} (keys : Series) (l : list A) :
  keep (notna <$> keys) l = rows_with_key keys l.
Proof.
  unfold rows_with_key. revert l.
  induction keys as [|c keys IH]; intros [|x l]; try done.
  rewrite fmap_cons. cbn [keep zip zip_with]. rewrite filter_cons.
  cbn [fst]. unfold notna at 1.
  destruct (isna c); case_decide; try done; simpl; by rewrite IH.
Qed.

Lemma keep_notna_present (s : Series) :
  Forall (λ c, isna c = false) (keep (notna <$> s) s).
Proof.
  induction s as [|c s IH]; [constructor|].
  rewrite fmap_cons. cbn [keep]. unfold notna at 1.
  destruct (isna c) eqn:Hc; simpl; [done|]. by constructor.
Qed.

(** The cells a mask drops and keeps add up. *)
Lemma keep_notna_count (s : Series) {A} (l : list A) :
  length s = length l →
  length (keep (notna <$> s) l) + length (filter (λ c, isna c = true) s)
  = length l.
Proof.
  revert l. induction s as [|c s IH]; intros [|x l] Hlen; try done.
  injection Hlen as Hlen. specialize (IH l Hlen).
  rewrite filter_cons, fmap_cons. unfold notna at 1.
  destruct (isna c) eqn:Hc; case_decide; try done; simpl; lia.
Qed.

Lemma notna_mask_one (s : Series) :
  notna_mask (length s) [s] = notna <$> s.
Proof.
  unfold notna_mask. simpl. rewrite <- (length_fmap notna s).
  induction (notna <$> s) as [|b m IH]; simpl; [done|].
  by rewrite IH, andb_true_r.
Qed.

Lemma filter_none {A} (P : A → Prop) `{!∀ x, Decision (P x)} (l : list A) :
  (∀ x, x ∈ l → ¬ P x) → filter P l = [].
Proof.
  induction l as [|x l IH]; intros HP; [done|].
  rewrite filter_cons_False by (apply HP; left).
  apply IH. intros y Hy. apply HP. by right.
Qed.

Lemma column_label cols l s : (l, s) ∈ cols → l ∈ cols.*1.
Proof. intros Hin. by apply (list_elem_of_fmap_2 fst _ (l, s)). Qed.

Lemma unique_column cols l s s' :
  NoDup cols.*1 → (l, s) ∈ cols → (l, s') ∈ cols → s = s'.
Proof.
  induction cols as [|[l0 s0] cols IH]; intros Hnd Hin Hin'.
  - by apply elem_of_nil in Hin.
  - rewrite fmap_cons in Hnd. apply NoDup_cons in Hnd as [Hfresh Hnd].
    simpl in Hfresh.
    apply elem_of_cons in Hin as [Heq|Hin];
      apply elem_of_cons in Hin' as [Heq'|Hin']; simplify_eq.
    + done.
    + exfalso. eauto using column_label.
    + exfalso. eauto using column_label.
    + eauto.
Qed.

Lemma filter_label_unique cols l s :
  NoDup cols.*1 → (l, s) ∈ cols → filter (λ c, c.1 = l) cols = [(l, s)].
Proof.
  induction cols as [|[l0 s0] cols IH]; intros Hnd Hin.
  - by apply elem_of_nil in Hin.
  - rewrite fmap_cons in Hnd. apply NoDup_cons in Hnd as [Hfresh Hnd].
    simpl in Hfresh. destruct (decide (l0 = l)) as [->|Hne].
    + rewrite filter_cons_True by done.
      assert (s0 = s) as ->.
      { apply elem_of_cons in Hin as [Heq|Hin]; [congruence|].
        exfalso. eauto using column_label. }
      f_equal. apply filter_none. intros [l1 s1] Hin1 ?; simplify_eq/=.
      eauto using column_label.
    + rewrite filter_cons_False by done. apply IH; [done|].
      apply elem_of_cons in Hin as [?|?]; [congruence|done].
Qed.

Lemma filter_label_absent cols l :
  l ∉ cols.*1 → filter (λ c, c.1 = l) cols = [].
Proof.
  intros Hnot. apply filter_none. intros [l1 s1] Hin ?.
  simplify_eq/=. eauto using column_label.
Qed.

Lemma select_unique df l s :
  NoDup (labels df) → (l, s) ∈ columns df → select df l = [s].
Proof.
  intros. unfold select. by erewrite filter_label_unique.
Qed.

Lemma select_absent df l : l ∉ labels df → select df l = [].
Proof. intros. unfold select. by rewrite filter_label_absent. Qed.

Lemma has_label_column df l :
  l ∈ labels df → ∃ s, (l, s) ∈ columns df.
Proof.
  unfold labels. intros Hin.
  apply list_elem_of_fmap in Hin as ([l1 s1] & -> & Hin). eauto.
Qed.

Lemma select_nil_absent df l : select df l = [] → l ∉ labels df.
Proof.
  unfold select. intros Hsel Hin.
  apply has_label_column in Hin as [s Hin].
  apply fmap_nil_inv in Hsel.
  by apply (filter_nil_not_elem_of _ _ (l, s)) in Hsel.
Qed.

Lemma map_column_labels f col cols : (map_column f col cols).*1 = cols.*1.
Proof.
  unfold map_column. rewrite <- list_fmap_compose.
  apply list_fmap_ext. intros i [l s] _. simpl. by case_decide.
Qed.

Lemma map_column_absent f col cols :
  col ∉ cols.*1 → map_column f col cols = cols.
Proof.
  intros Hnot. unfold map_column. rewrite <- (list_fmap_id cols) at 2.
  apply list_fmap_ext. intros i [l s] Hi. simpl. case_decide; [|done].
  subst. exfalso. apply Hnot.
  eapply column_label, list_elem_of_lookup_2, Hi.
Qed.

(** Storing [f s] under a label that names the one column [s]. *)
Lemma map_column_const f col cols s :
  NoDup cols.*1 → (col, s) ∈ cols →
  map_column (λ _, f s) col cols = map_column f col cols.
Proof.
  intros Hnd Hin. unfold map_column. apply list_fmap_ext.
  intros i [l s1] Hi. simpl. case_decide; [|done]. subst.
  do 2 f_equal. eapply unique_column; [done..|].
  by eapply list_elem_of_lookup_2.
Qed.

Lemma put_columns_select f col cols :
  put_columns col (f <$> (filter (λ c, c.1 = col) cols).*2) cols
  = map_column f col cols.
Proof.
  induction cols as [|[l s] cols IH]; [done|].
  rewrite filter_cons. cbn [put_columns map_column fmap list_fmap fst snd].
  destruct (decide (l = col)) as [->|Hne].
  - rewrite !fmap_cons. cbn [fst snd]. f_equal. apply IH.
  - f_equal. apply IH.
Qed.

Lemma take_rows_labels mask df : labels (take_rows mask df) = labels df.
Proof.
  unfold labels, take_rows. simpl. rewrite <- list_fmap_compose.
  by apply list_fmap_ext.
Qed.

End Frame_facts.

(** ** Phase 3 *)

Section Validate_facts.

Context {bytes : Type}.
Variable parse_datetime : Series → cell → option Z.
Implicit Types (w : World (bytes := bytes)) (df d : DataFrame).

Lemma maybe_logger {B} (b : bool) lvl msg (k : M B) w :
  ((if b then logger lvl msg else mret ()) ;; k) w
  = k (if b then logged lvl msg w else w).
Proof. by destruct b. Qed.

(** One turn of the loop over [date_cols]. *)
Lemma coerce_turn d col :
  NoDup (labels d) →
  (if has_column d col then
     sel ← lift (getitem d col);
     s ← lift (to_datetime parse_datetime sel);
     mret (setitem d col s)
   else mret d)
  = mret (M := M (bytes := bytes))
      (mkFrame (index d)
         (map_column (to_datetime_series parse_datetime) col (columns d))).
Proof.
  intros Hnd. unfold has_column. case_bool_decide as Hin.
  - destruct (has_label_column _ _ Hin) as [s Hs].
    unfold getitem. rewrite (select_unique _ _ s) by done.
    rewrite lift_Ok_bind. simpl to_datetime. rewrite lift_Ok_bind.
    unfold setitem, has_column. rewrite bool_decide_eq_true_2 by done.
    by rewrite (map_column_const (to_datetime_series parse_datetime)).
  - rewrite map_column_absent by done. by destruct d.
Qed.

(** The cleaner on a frame with distinct labels, case by case. *)
Lemma validate_and_clean_NoDup df w :
  NoDup (labels df) →
  validate_and_clean parse_datetime df w =
  let w1 := logged INFO "Phase 3: Validating data..." w in
  match select df "Ticket ID" with
  | [] => (Raise (KeyError (PyStr.repr_list ["Ticket ID"])), w1)
  | sel =>
      let mask := notna_mask (len df) sel in
      let dropped := len df - length (keep mask (index df)) in
      let w2 :=
        if bool_decide (length (keep mask (index df)) < len df)
        then logged WARNING
               ("Dropped " +:+ PyStr.of_nat dropped
                +:+ " rows due to missing Ticket IDs.") w1
        else w1 in
      if bool_decide ("Closed Date" ∈ labels df)
      then (Ok (mkFrame (keep mask (index df))
                  (cleaned_column parse_datetime mask <$> columns df)),
            logged INFO "Validation complete." w2)
      else (Raise (KeyError (PyStr.repr "Closed Date")), w2)
  end.
Proof.
  intros Hnd. unfold validate_and_clean. rewrite logger_seq.
  unfold dropna. destruct (select df "Ticket ID") as [|s0 sel0]; [done|].
  rewrite lift_Ok_bind, maybe_logger.
  set (mask := notna_mask _ _). set (d0 := take_rows mask df).
  assert (NoDup (labels d0)) as Hnd0.
  { unfold d0. by rewrite take_rows_labels. }
  cbn [for_each].
  rewrite (coerce_turn d0) by done. rewrite mret_bind.
  set (d1 := mkFrame _ _).
  assert (labels d1 = labels d0) as Hl1 by apply map_column_labels.
  rewrite (coerce_turn d1) by (by rewrite Hl1). rewrite !mret_bind.
  set (d2 := mkFrame (index d1) (map_column _ "Closed Date" (columns d1))).
  assert (labels d2 = labels df) as Hl2.
  { transitivity (labels d1); [apply map_column_labels|].
    rewrite Hl1. apply take_rows_labels. }
  cbv zeta. change (len d0) with (length (keep mask (index df))).
  unfold getitem.
  destruct (bool_decide ("Closed Date" ∈ labels df)) eqn:Hclosed;
    [apply bool_decide_eq_true in Hclosed
    |apply bool_decide_eq_false in Hclosed].
  - destruct (select d2 "Closed Date") as [|s2 sel2] eqn:Hsel.
    { apply select_nil_absent in Hsel. by rewrite Hl2 in Hsel. }
    rewrite lift_Ok_bind, logger_seq. unfold mret, M_ret. do 2 f_equal.
    rewrite <- Hsel. unfold setitem_frame, select.
    rewrite put_columns_select.
    unfold d2, d1, d0, take_rows, map_column. simpl. f_equal.
    rewrite <- !list_fmap_compose. apply list_fmap_ext.
    intros i [l s] _. unfold cleaned_column. simpl.
    repeat (case_decide; simplify_eq/=); done.
  - rewrite select_absent by (by rewrite Hl2). done.
Qed.

End Validate_facts.


(** ** Phase 1 *)

Section Header_facts.

Implicit Types (hs keys : list string) (m n : gmap string string).

Lemma header_lookup_snoc hs h :
  header_lookup (hs ++ [h]) = <[normalize h := h]> (header_lookup hs).
Proof. unfold header_lookup. by rewrite foldl_app. Qed.

(** The dictionary comprehension keeps, for a normalized name, the last
    header name that has it. *)
Lemma header_lookup_last hs k :
  header_lookup hs !! k = last (filter (λ h, normalize h = k) hs).
Proof.
  induction hs as [|h hs IH] using rev_ind; [done|].
  rewrite header_lookup_snoc, filter_app, filter_cons, filter_nil.
  destruct (decide (normalize h = k)) as [<-|Hne].
  - by rewrite lookup_insert_eq, last_snoc.
  - by rewrite lookup_insert_ne, app_nil_r.
Qed.

Lemma header_lookup_Some hs k h :
  header_lookup hs !! k = Some h → h ∈ hs ∧ normalize h = k.
Proof.
  rewrite header_lookup_last. intros Hlast.
  pose proof (last_Some_elem_of _ _ Hlast) as Hin.
  apply list_elem_of_filter in Hin. by destruct Hin.
Qed.

Lemma header_lookup_None hs k :
  header_lookup hs !! k = None ↔ k ∉ normalize <$> hs.
Proof.
  rewrite header_lookup_last, last_None. split.
  - intros Hnil (h & -> & Hin)%list_elem_of_fmap.
    by apply (filter_nil_not_elem_of _ _ h) in Hnil.
  - intros Hnot. apply filter_none. intros h Hin <-.
    apply Hnot. by apply list_elem_of_fmap_2.
Qed.

(** The loop over the required columns, as three folds. *)
Lemma resolve_fold m keys usecols n missing :
  foldl (resolve_column m) (usecols, n, missing) keys
  = (usecols ++ omap (λ r, m !! normalize r) keys,
     foldl (λ n r, match m !! normalize r with
                   | Some a => <[a := r]> n
                   | None => n
                   end) n keys,
     missing ++ filter (λ r, m !! normalize r = None) keys).
Proof.
  revert usecols n missing.
  induction keys as [|r keys IH]; intros usecols n missing.
  - by rewrite !app_nil_r.
  - cbn [foldl]. unfold resolve_column at 2. fold (normalize r).
    rewrite filter_cons. cbn [omap list_omap].
    destruct (m !! normalize r) as [a|] eqn:Ha; rewrite IH.
    + rewrite decide_False by done. by rewrite <- app_assoc.
    + rewrite decide_True by done. by rewrite <- app_assoc.
Qed.

End Header_facts.

Section Loader_facts.

Context {bytes : Type}.
Variable read_csv_bytes : encoding → bytes → result DataFrame.
Implicit Types (w : World (bytes := bytes)) (t df : DataFrame).

Lemma read_csv_file p w b usecols nrows enc :
  files w !! p = Some b →
  read_csv read_csv_bytes p usecols nrows enc w
  = (match read_csv_bytes enc b with
     | Raise e => Raise e
     | Ok parsed =>
         match use_columns usecols parsed with
         | Raise e => Raise e
         | Ok df => Ok (from_option (λ n, head n df) df nrows)
         end
     end, w).
Proof.
  intros Hb. unfold read_csv. rewrite Hb.
  destruct (read_csv_bytes enc b); [|done].
  by destruct (use_columns _ _).
Qed.

Lemma read_header p w b :
  files w !! p = Some b →
  except_UnicodeDecodeError
    (read_csv read_csv_bytes p None (Some 0) utf_8)
    (read_csv read_csv_bytes p None (Some 0) latin1) w
  = (match decode_csv read_csv_bytes b with
     | Ok t => Ok (head 0 t)
     | Raise e => Raise e
     end, w).
Proof.
  intros Hb. unfold except_UnicodeDecodeError, try_except, decode_csv.
  rewrite (read_csv_file _ _ b) by done.
  destruct (read_csv_bytes utf_8 b) as [t|[]]; simpl; try done.
  rewrite (read_csv_file _ _ b) by done.
  by destruct (read_csv_bytes latin1 b).
Qed.

Lemma read_header_decoded p w b t :
  files w !! p = Some b → decode_csv read_csv_bytes b = Ok t →
  except_UnicodeDecodeError
    (read_csv read_csv_bytes p None (Some 0) utf_8)
    (read_csv read_csv_bytes p None (Some 0) latin1) w
  = (Ok (head 0 t), w).
Proof. intros Hb Ht. by rewrite (read_header _ _ b), Ht. Qed.

Lemma read_body p w b t usecols df :
  files w !! p = Some b → decode_csv read_csv_bytes b = Ok t →
  use_columns (Some usecols) t = Ok df →
  ∃ w',
    except_UnicodeDecodeError
      (read_csv read_csv_bytes p (Some usecols) None utf_8)
      (logger WARNING "UTF-8 decode failed, retrying with latin1.";;
       read_csv read_csv_bytes p (Some usecols) None latin1) w
    = (Ok df, w')
    ∧ files w' = files w.
Proof.
  intros Hb Ht Hdf. revert Ht.
  unfold except_UnicodeDecodeError, try_except, decode_csv.
  rewrite (read_csv_file _ _ b) by done.
  destruct (read_csv_bytes utf_8 b) as [t'|e].
  { intros [= ->]. rewrite Hdf. eexists; split; reflexivity. }
  destruct e; try done. intros Ht.
  rewrite logger_seq, (read_csv_file _ _ b), Ht, Hdf by done.
  eexists; split; reflexivity.
Qed.

Lemma head_labels n t : labels (head n t) = labels t.
Proof.
  unfold labels, head. simpl. rewrite <- list_fmap_compose.
  by apply list_fmap_ext.
Qed.

Lemma missing_columns_lookup hs :
  filter (λ r, header_lookup hs !! normalize r = None) (COLUMN_MAPPING.*1)
  = missing_columns hs.
Proof. apply list_filter_iff. intros r. apply header_lookup_None. Qed.

(** The loader up to the end of the loop over the required columns. *)
Local Ltac load_prefix Hb Ht b t :=
  unfold load_source_data; rewrite logger_seq;
  unfold os_path_exists; unfold mbind at 1, M_bind at 1;
  rewrite files_logged, Hb, bool_decide_eq_true_2 by eauto;
  cbn [negb]; unfold try_except;
  rewrite (bind_Ok _ _ _ (head 0 t) _
             (read_header_decoded _ (logged INFO _ _) b t Hb Ht));
  rewrite head_labels, resolve_fold, missing_columns_lookup;
  cbn [app]; fold (resolved (labels t)); fold (normalization (labels t)).

Lemma load_source_data_missing p w b t :
  files w !! p = Some b → decode_csv read_csv_bytes b = Ok t →
  missing_columns (labels t) ≠ [] →
  ∃ w',
    load_source_data read_csv_bytes p w
    = (Raise (ValueError ("Missing required columns: "
                          +:+ PyStr.repr_list (missing_columns (labels t)))),
       w')
    ∧ files w' = files w.
Proof.
  intros Hb Ht Hmissing. load_prefix Hb Ht b t.
  rewrite bool_decide_eq_true_2 by done.
  eexists; split; reflexivity.
Qed.

Lemma load_source_data_found p w b t df :
  files w !! p = Some b → decode_csv read_csv_bytes b = Ok t →
  missing_columns (labels t) = [] →
  use_columns (Some (resolved (labels t))) t = Ok df →
  ∃ w',
    load_source_data read_csv_bytes p w
    = (Ok (rename (λ l, normalization (labels t) !! l) df), w')
    ∧ files w' = files w.
Proof.
  intros Hb Ht Hmissing Hdf. load_prefix Hb Ht b t.
  rewrite bool_decide_eq_false_2 by (by intros []).
  destruct (read_body p (logged INFO ("Phase 1: Reading input CSV file from "
                                      +:+ p) w) b t _ df Hb Ht Hdf)
    as (w1 & Hread & Hfiles).
  rewrite (bind_Ok _ _ _ _ _ Hread), logger_seq.
  eexists; split; [reflexivity|]. by rewrite files_logged.
Qed.

Lemma load_source_data_undecodable p w b e :
  files w !! p = Some b → decode_csv read_csv_bytes b = Raise e →
  ∃ w',
    load_source_data read_csv_bytes p w = (Raise e, w')
    ∧ files w' = files w.
Proof.
  intros Hb He. unfold load_source_data. rewrite logger_seq.
  unfold os_path_exists. unfold mbind at 1, M_bind at 1.
  rewrite files_logged, Hb, bool_decide_eq_true_2 by eauto.
  cbn [negb]. unfold try_except.
  rewrite (bind_Raise _ _ _ e
             (logged INFO ("Phase 1: Reading input CSV file from " +:+ p) w)).
  - eexists; split; reflexivity.
  - by rewrite (read_header _ _ b), He.
Qed.

Lemma load_source_data_not_found p w :
  files w !! p = None →
  ∃ w',
    load_source_data read_csv_bytes p w
    = (Raise (FileNotFoundError ("Input file does not exist: " +:+ p)), w')
    ∧ files w' = files w.
Proof.
  intros Hb. unfold load_source_data. rewrite logger_seq.
  unfold os_path_exists. unfold mbind at 1, M_bind at 1.
  rewrite files_logged, Hb, bool_decide_eq_false_2
    by (by intros [? [=]]).
  eexists; split; reflexivity.
Qed.

End Loader_facts.

Section Resolution.

Implicit Types (hs ks : list string) (t : DataFrame).

Lemma required_normalize_NoDup : NoDup (normalize <$> COLUMN_MAPPING.*1).
Proof. by apply (bool_decide_unpack _); vm_compute. Qed.

Lemma required_NoDup : NoDup (COLUMN_MAPPING.*1).
Proof. by apply (bool_decide_unpack _); vm_compute. Qed.

Lemma resolved_elem hs h :
  h ∈ resolved hs ↔
  ∃ r, r ∈ COLUMN_MAPPING.*1 ∧ header_lookup hs !! normalize r = Some h.
Proof. unfold resolved. by rewrite list_elem_of_omap. Qed.

Lemma resolved_header hs h : h ∈ resolved hs → h ∈ hs.
Proof.
  intros (r & _ & Hr)%resolved_elem.
  by apply header_lookup_Some in Hr as [? _].
Qed.

Lemma not_missing hs r :
  missing_columns hs = [] → r ∈ COLUMN_MAPPING.*1 →
  ∃ h, header_lookup hs !! normalize r = Some h.
Proof.
  intros Hnil Hr.
  destruct (header_lookup hs !! normalize r) as [h|] eqn:Hh; [eauto|].
  apply header_lookup_None in Hh. unfold missing_columns in Hnil.
  destruct (filter_nil_not_elem_of _ _ r Hnil Hh Hr).
Qed.

(** The renames of a fold over required names that differ once
    normalized: the actual name found for [r] is renamed to [r]. *)
Lemma normalization_fold hs ks r h :
  NoDup (normalize <$> ks) → r ∈ ks →
  header_lookup hs !! normalize r = Some h →
  foldl (λ (n : gmap string string) r,
           match header_lookup hs !! normalize r with
           | Some a => <[a := r]> n
           | None => n
           end) ∅ ks !! h = Some r.
Proof.
  induction ks as [|r0 ks IH] using rev_ind; intros Hnd Hin Hh.
  - by apply elem_of_nil in Hin.
  - rewrite fmap_app in Hnd. apply NoDup_app in Hnd as (Hnd & Hfresh & _).
    rewrite foldl_app. cbn [foldl].
    apply elem_of_app in Hin as [Hin|Hin%list_elem_of_singleton].
    + destruct (header_lookup hs !! normalize r0) as [h0|] eqn:Hh0;
        [|by apply IH].
      rewrite lookup_insert_ne; [by apply IH|]. intros ->.
      apply header_lookup_Some in Hh as [_ Hn], Hh0 as [_ Hn0].
      apply (Hfresh (normalize r)); [by apply list_elem_of_fmap_2|].
      rewrite <- Hn, Hn0. set_solver.
    + subst r0. rewrite Hh. apply lookup_insert_eq.
Qed.

Lemma normalization_lookup hs r h :
  r ∈ COLUMN_MAPPING.*1 → header_lookup hs !! normalize r = Some h →
  normalization hs !! h = Some r.
Proof. apply normalization_fold, required_normalize_NoDup. Qed.

Lemma use_columns_resolved t :
  use_columns (Some (resolved (labels t))) t
  = Ok (mkFrame (index t)
          (filter (λ c, c.1 ∈ resolved (labels t)) (columns t))).
Proof.
  unfold use_columns. rewrite filter_none; [done|].
  intros h Hh Hnot. by apply Hnot, resolved_header.
Qed.

Lemma loaded_column t r h s :
  r ∈ COLUMN_MAPPING.*1 →
  header_lookup (labels t) !! normalize r = Some h →
  (h, s) ∈ columns t → (r, s) ∈ columns (loaded_frame t).
Proof.
  intros Hr Hh Hs. unfold loaded_frame, rename. simpl.
  apply list_elem_of_fmap. exists (h, s). simpl.
  rewrite (normalization_lookup _ r) by done. split; [done|].
  apply list_elem_of_filter. split; [|done].
  apply resolved_elem. eauto.
Qed.

Lemma loaded_label t l :
  l ∈ labels (loaded_frame t) → l ∈ COLUMN_MAPPING.*1.
Proof.
  unfold labels, loaded_frame, rename. simpl.
  rewrite <- list_fmap_compose.
  intros ([h s] & -> & [Hres _]%list_elem_of_filter)%list_elem_of_fmap.
  simpl in *. apply resolved_elem in Hres as (r & Hr & Hh).
  by rewrite (normalization_lookup _ r).
Qed.

Lemma loaded_labels_NoDup t :
  NoDup (labels t) → NoDup (labels (loaded_frame t)).
Proof.
  intros Hnd. unfold labels, loaded_frame, rename. simpl.
  rewrite <- list_fmap_compose.
  apply NoDup_fmap_2_strong.
  - intros [h1 s1] [h2 s2] [Hres1 Hin1]%list_elem_of_filter
      [Hres2 Hin2]%list_elem_of_filter Heq. simpl in *.
    apply resolved_elem in Hres1 as (r1 & Hr1 & Hh1).
    apply resolved_elem in Hres2 as (r2 & Hr2 & Hh2).
    rewrite (normalization_lookup _ r1), (normalization_lookup _ r2)
      in Heq by done.
    simpl in Heq. subst r2. assert (h1 = h2) as -> by congruence.
    f_equal. by eapply unique_column.
  - apply NoDup_filter. by apply NoDup_fmap_1 in Hnd.
Qed.

Lemma loaded_labels t :
  NoDup (labels t) → missing_columns (labels t) = [] →
  labels (loaded_frame t) ≡ₚ COLUMN_MAPPING.*1.
Proof.
  intros Hnd Hmissing.
  apply NoDup_Permutation;
    [by apply loaded_labels_NoDup|apply required_NoDup|].
  intros r. split; [apply loaded_label|]. intros Hr.
  destruct (not_missing _ _ Hmissing Hr) as [h Hh].
  destruct (header_lookup_Some _ _ _ Hh) as [Hin _].
  destruct (has_label_column _ _ Hin) as [s Hs].
  eapply column_label, loaded_column; eauto.
Qed.

End Resolution.

(** ** Phase 2 *)

Section Mapper_facts.

Implicit Types (d df : DataFrame) (s : Series).

Lemma setitem_fresh d col s :
  col ∉ labels d →
  setitem d col s = mkFrame (index d) (columns d ++ [(col, s)]).
Proof.
  intros Hnot. unfold setitem, has_column.
  by rewrite bool_decide_eq_false_2.
Qed.

Lemma select_setitem_other d col col' s :
  col' ≠ col → select (setitem d col s) col' = select d col'.
Proof.
  intros Hne. unfold select, setitem. simpl. destruct (has_column d col).
  - f_equal. unfold map_column.
    induction (columns d) as [|[l s0] cols IH]; [done|].
    rewrite fmap_cons, !filter_cons. cbn [fst snd].
    destruct (decide (l = col)) as [->|]; cbn [fst].
    + by rewrite !decide_False by done.
    + destruct (decide (l = col')); by rewrite IH.
  - rewrite filter_app, filter_cons_False, filter_nil, app_nil_r by done.
    done.
Qed.

Lemma select_setitem_same d col s s' :
  s' ∈ select (setitem d col s) col → s' = s.
Proof.
  unfold select, setitem, has_column. simpl. case_bool_decide as Hin.
  - unfold map_column.
    intros ([l1 s1] & -> & [Hl Hc]%list_elem_of_filter)%list_elem_of_fmap.
    apply list_elem_of_fmap in Hc as ([l2 s2] & Heq & _).
    simpl in *. by case_decide; simplify_eq.
  - rewrite filter_app, filter_label_absent by done.
    rewrite filter_cons_True, filter_nil by done.
    by intros ->%list_elem_of_singleton.
Qed.

Lemma select_setitem_nonempty d col s : select (setitem d col s) col ≠ [].
Proof.
  intros Hnil%select_nil_absent. apply Hnil.
  unfold labels, setitem, has_column. simpl. case_bool_decide as Hin.
  - by rewrite map_column_labels.
  - rewrite fmap_app. set_solver.
Qed.

Lemma select_setitem_scalar_other d col col' v :
  col' ≠ col → select (setitem_scalar d col v) col' = select d col'.
Proof. apply select_setitem_other. Qed.

(** After [df[col] = val] every column under [col] is the constant. *)
Lemma constant_column d col v :
  select (setitem_scalar d col v) col ≠ []
  ∧ ∀ s, s ∈ select (setitem_scalar d col v) col →
      s = replicate (len d) v.
Proof.
  split; [apply select_setitem_nonempty|apply select_setitem_same].
Qed.

Lemma elem_labels_setitem d col s l :
  l ∈ labels (setitem d col s) ↔ l ∈ labels d ∨ l = col.
Proof.
  unfold setitem, has_column, labels. cbn [columns].
  case_bool_decide as Hin.
  - rewrite map_column_labels. split; [by left|].
    by intros [?| ->].
  - rewrite fmap_app, elem_of_app. cbn. by rewrite list_elem_of_singleton.
Qed.

(** The mapper yields a column "Closed Date" by renaming, not by the
    constants. *)
Lemma mapped_closed_date df :
  "Closed Date"
  ∈ labels (foldl (λ d kv, setitem_scalar d kv.1 (Str kv.2))
              (rename (dict_get COLUMN_MAPPING) df) CONSTANTS)
  ↔ "Resolved" ∈ labels df ∨ "Closed Date" ∈ labels df.
Proof.
  cbn [foldl CONSTANTS fst snd]. unfold setitem_scalar.
  rewrite !elem_labels_setitem.
  assert ("Closed Date" ∈ labels (rename (dict_get COLUMN_MAPPING) df)
          ↔ "Resolved" ∈ labels df ∨ "Closed Date" ∈ labels df) as ->.
  { split.
    - unfold labels at 1, rename. cbn [columns].
      rewrite <- list_fmap_compose.
      intros ([l s] & Heq & Hin%column_label)%list_elem_of_fmap.
      fold (labels df) in Hin. simpl in Heq. revert Heq.
      unfold dict_get, COLUMN_MAPPING.
      repeat case_decide; simpl; intros; simplify_eq; auto.
    - unfold labels at 3, rename. cbn [columns].
      rewrite <- list_fmap_compose.
      intros [[s Hs]%has_label_column|[s Hs]%has_label_column];
        apply list_elem_of_fmap;
        [by exists ("Resolved", s)|by exists ("Closed Date", s)]. }
  split; [|by intros; do 3 left].
  by intros [[[?|[=]]|[=]]|[=]].
Qed.

(** The renamed labels of a frame whose labels are required names are
    target names; no constant is named like a target. *)
Lemma renamed_label df l :
  (∀ l, l ∈ labels df → l ∈ COLUMN_MAPPING.*1) →
  l ∈ labels (rename (dict_get COLUMN_MAPPING) df) →
  l ∈ COLUMN_MAPPING.*2.
Proof.
  intros Hsub. unfold labels, rename. simpl. rewrite <- list_fmap_compose.
  intros ([l0 s0] & -> & Hin)%list_elem_of_fmap. simpl.
  apply column_label, Hsub, list_elem_of_In in Hin. simpl in Hin.
  repeat (destruct Hin as [<-|Hin];
          [by apply (bool_decide_unpack _); vm_compute|]).
  done.
Qed.




Lemma cleaned_labels parse_datetime mask cols :
  (cleaned_column parse_datetime mask <$> cols).*1 = cols.*1.
Proof. rewrite <- list_fmap_compose. by apply list_fmap_ext. Qed.

End Mapper_facts.

Section Mapper_run.

Context {bytes : Type}.
Implicit Types (w : World (bytes := bytes)) (df : DataFrame).

Lemma mapped_frame_required df :
  (∀ l, l ∈ labels df → l ∈ COLUMN_MAPPING.*1) →
  foldl (λ d kv, setitem_scalar d kv.1 (Str kv.2))
        (rename (dict_get COLUMN_MAPPING) df) CONSTANTS
  = mkFrame (index df) (mapped_columns (len df) (columns df)).
Proof.
  intros Hsub. cbn [foldl CONSTANTS fst snd].
  unfold setitem_scalar. set (d0 := rename (dict_get COLUMN_MAPPING) df).
  assert (∀ c, c ∉ COLUMN_MAPPING.*2 → c ∉ labels d0) as Hfresh.
  { intros c Hc Hin. by apply Hc, (renamed_label df). }
  rewrite (setitem_fresh d0 "Priority")
    by (by apply Hfresh, (bool_decide_unpack _); vm_compute).
  set (d1 := mkFrame _ _).
  rewrite (setitem_fresh d1 "Application").
  2:{ unfold labels, d1. simpl. rewrite fmap_app.
      intros [Hin|[=]%list_elem_of_singleton]%elem_of_app.
      revert Hin. by apply Hfresh, (bool_decide_unpack _); vm_compute. }
  set (d2 := mkFrame _ _).
  rewrite (setitem_fresh d2 "Assignment Group").
  2:{ unfold labels, d2, d1. simpl. rewrite !fmap_app.
      intros [[Hin|[=]%list_elem_of_singleton]%elem_of_app
             |[=]%list_elem_of_singleton]%elem_of_app.
      revert Hin. by apply Hfresh, (bool_decide_unpack _); vm_compute. }
  unfold d2, d1, d0, rename, len, mapped_columns. simpl. f_equal.
  by rewrite <- !app_assoc.
Qed.


End Mapper_run.

(** ** Phase 4 *)

Section Writer_facts.

Context {bytes : Type}.
Variable excel_bytes : string → list (string * Series) → result bytes.
Implicit Types (w : World (bytes := bytes)) (df : DataFrame).


Lemma getitem_list_missing df keys k :
  k ∈ keys → k ∉ labels df →
  ∃ arg, getitem_list df keys = Raise (KeyError arg).
Proof.
  intros Hk Hnot. unfold getitem_list.
  destruct (filter (λ k, k ∉ labels df) keys) as [|k' ks] eqn:Hf; [|eauto].
  destruct (filter_nil_not_elem_of _ _ k Hf Hnot Hk).
Qed.

(** The labels of a projection that succeeds on distinct labels are the
    keys. *)
Lemma getitem_list_labels df keys dff :
  NoDup (labels df) → getitem_list df keys = Ok dff →
  labels dff = keys ∧ index dff = index df
  ∧ ∀ c, c ∈ columns dff → c ∈ columns df.
Proof.
  intros Hnd. unfold getitem_list.
  destruct (filter (λ k, k ∉ labels df) keys) as [|k' ks] eqn:Hf; [|done].
  intros [= <-]. simpl. split_and!; [|done|].
  - unfold labels. simpl. induction keys as [|k keys IH]; [done|].
    rewrite filter_cons in Hf. case_decide as Hk; [done|].
    apply has_label_column in Hk as [s Hs].
    rewrite fmap_cons. change (mjoin (?x :: ?ls)) with (x ++ mjoin ls).
    rewrite (filter_label_unique _ _ s), fmap_app by done.
    simpl. f_equal. by apply IH.
  - intros c (l & Hc & (k & -> & _)%list_elem_of_fmap)%list_elem_of_join.
    by apply list_elem_of_filter in Hc as [_ Hc].
Qed.

(** The writer, case by case. *)
Lemma save_target_file_cases df output_path w :
  save_target_file excel_bytes df output_path w =
  let w1 := logged INFO ("Phase 4: Writing output to " +:+ output_path) w in
  match getitem_list df FINAL_COLUMN_ORDER with
  | Raise e =>
      (Ok false,
       logged ERROR ("Failed to write output file: " +:+ str_exn e) w1)
  | Ok df_final =>
      match excel_bytes output_path (columns df_final) with
      | Raise e =>
          (Ok false,
           logged ERROR ("Failed to write output file: " +:+ str_exn e) w1)
      | Ok b =>
          (Ok true,
           logged INFO "SUCCESS: Transformation complete."
             (mkWorld (<[output_path := b]> (files w1)) (log w1)))
      end
  end.
Proof.
  unfold save_target_file. rewrite logger_seq. unfold try_except.
  rewrite lift_bind. destruct (getitem_list _ _) as [dff|e]; [|done].
  unfold mbind, M_bind, to_excel.
  by destruct (excel_bytes _ _).
Qed.

End Writer_facts.

(** ** The pipeline *)

Section Pipeline_facts.

Context {bytes : Type}.
Variable read_csv_bytes : encoding → bytes → result DataFrame.
Variable parse_datetime : Series → cell → option Z.
Variable excel_bytes : string → list (string * Series) → result bytes.
Implicit Types (w : World (bytes := bytes)) (t df : DataFrame).

Local Abbreviation run :=
  (run_transformation_pipeline read_csv_bytes parse_datetime excel_bytes).

(** The orchestrator, stage by stage. *)
Lemma run_cases input_path output_path w :
  run input_path output_path w =
  match load_source_data read_csv_bytes input_path w with
  | (Raise e, w1) =>
      (Ok false, logged ERROR ("Pipeline failed: " +:+ str_exn e) w1)
  | (Ok df1, w1) =>
      match apply_transformations df1 w1 with
      | (Raise e, w2) =>
          (Ok false, logged ERROR ("Pipeline failed: " +:+ str_exn e) w2)
      | (Ok df2, w2) =>
          match validate_and_clean parse_datetime df2 w2 with
          | (Raise e, w3) =>
              (Ok false,
               logged ERROR ("Pipeline failed: " +:+ str_exn e) w3)
          | (Ok df3, w3) => save_target_file excel_bytes df3 output_path w3
          end
      end
  end.
Proof.
  unfold run_transformation_pipeline, try_except, mbind, M_bind.
  destruct (load_source_data _ _ _) as [[df1|e] w1]; [|done].
  destruct (apply_transformations _ _) as [[df2|e] w2]; [|done].
  destruct (validate_and_clean _ _ _) as [[df3|e] w3]; [|done].
  rewrite save_target_file_cases. cbv zeta.
  destruct (getitem_list _ _); [|done]. by destruct (excel_bytes _ _).
Qed.

Lemma load_source_data_loaded p w b t :
  files w !! p = Some b → decode_csv read_csv_bytes b = Ok t →
  missing_columns (labels t) = [] →
  ∃ w',
    load_source_data read_csv_bytes p w = (Ok (loaded_frame t), w')
    ∧ files w' = files w.
Proof.
  intros Hb Ht Hmissing.
  by apply (load_source_data_found _ _ _ b t), use_columns_resolved.
Qed.




(** The loader returns [loader_result] of the file at the path. *)
Lemma load_source_data_result p w :
  ∃ w',
    load_source_data read_csv_bytes p w
    = (loader_result read_csv_bytes p (files w !! p), w')
    ∧ files w' = files w.
Proof.
  unfold loader_result. destruct (files w !! p) as [b|] eqn:Hb;
    [|by apply load_source_data_not_found].
  destruct (decode_csv read_csv_bytes b) as [t|e] eqn:Ht;
    [|by apply (load_source_data_undecodable _ _ _ b)].
  destruct (missing_columns (labels t)) as [|r ms] eqn:Hmissing.
  - by apply (load_source_data_loaded _ _ b).
  - rewrite <- Hmissing. apply (load_source_data_missing _ _ _ b); [done..|].
    by rewrite Hmissing.
Qed.





End Pipeline_facts.


(** * The claims *)

(** ** The mapper *)

Section Mapper_claim.

Context {bytes : Type}.
Implicit Types (w : World (bytes := bytes)) (df : DataFrame).

(** C8.  The mapper cannot fail and keeps the rows.  Whatever the frame,
    each constant column then holds its literal on every row, also where
    a column of that name existed before.  On a frame whose columns are
    the canonical source names, each column is renamed to its target and
    the three constant columns follow. *)
Theorem mapper_renames_and_injects df w :
  ∃ df',
    apply_transformations df w
    = (Ok df', logged INFO "Phase 2: Applying transformations..." w)
    ∧ index df' = index df
    ∧ (∀ c v, (c, v) ∈ CONSTANTS →
         select df' c ≠ []
         ∧ ∀ s, s ∈ select df' c → s = replicate (len df) (Str v))
    ∧ (labels df ≡ₚ COLUMN_MAPPING.*1 →
         columns df'
         = ((λ c, (default c.1 (dict_get COLUMN_MAPPING c.1), c.2))
              <$> columns df)
           ++ [ ("Priority", replicate (len df) (Str "NONE"));
                ("Application", replicate (len df) (Str "HMOF"));
                ("Assignment Group",
                 replicate (len df) (Str "HMH Support Group")) ]
         ∧ labels df' ≡ₚ FINAL_COLUMN_ORDER).
Proof.
  exists (foldl (λ d kv, setitem_scalar d kv.1 (Str kv.2))
                (rename (dict_get COLUMN_MAPPING) df) CONSTANTS).
  split; [reflexivity|]. split; [reflexivity|]. split.
  - intros c v Hin. cbn [foldl CONSTANTS fst snd].
    apply list_elem_of_In in Hin. simpl in Hin.
    destruct Hin as [[= <- <-]|[[= <- <-]|[[= <- <-]|[]]]];
      rewrite ?(select_setitem_scalar_other _ "Assignment Group") by done;
      rewrite ?(select_setitem_scalar_other _ "Application") by done;
      match goal with
      | |- context [select (setitem_scalar ?d ?c ?v) ?c] =>
          exact (constant_column d c v)
      end.
  - intros Hperm.
    rewrite mapped_frame_required by (intros l Hl; by rewrite <- Hperm).
    split; [reflexivity|]. unfold labels at 1. cbn [columns].
    unfold mapped_columns. rewrite fmap_app.
    assert (((λ c : string * Series,
                (default c.1 (dict_get COLUMN_MAPPING c.1), c.2))
               <$> columns df).*1
            = (λ l, default l (dict_get COLUMN_MAPPING l)) <$> labels df)
      as ->.
    { unfold labels. rewrite <- !list_fmap_compose.
      by apply list_fmap_ext. }
    rewrite Hperm. apply NoDup_Permutation.
    + by apply (bool_decide_unpack _); vm_compute.
    + by apply (bool_decide_unpack _); vm_compute.
    + intros l. vm_compute fmap. unfold FINAL_COLUMN_ORDER. simpl app.
      rewrite !elem_of_cons, !elem_of_nil. tauto.
Qed.

End Mapper_claim.

Section Claims.

Context {bytes : Type}.
Variable read_csv_bytes : encoding → bytes → result DataFrame.
Variable parse_datetime : Series → cell → option Z.
Variable excel_bytes : string → list (string * Series) → result bytes.
Implicit Types (w : World (bytes := bytes)) (t df : DataFrame).

Local Abbreviation run :=
  (run_transformation_pipeline read_csv_bytes parse_datetime excel_bytes).

(** ** The loader *)

(** C3.  When the header of the file lacks one or more required columns,
    the loader raises a [ValueError], so no frame is produced; its
    message lists all the required columns that no header name matches,
    and each such column is printed in it. *)
Theorem loader_reports_all_missing_columns input_path w b t r0 :
  files w !! input_path = Some b →
  decode_csv read_csv_bytes b = Ok t →
  r0 ∈ COLUMN_MAPPING.*1 → (∀ h, h ∈ labels t → ¬ same_name h r0) →
  ∃ msg w',
    load_source_data read_csv_bytes input_path w
    = (Raise (ValueError msg), w')
    ∧ files w' = files w
    ∧ msg = "Missing required columns: "
            +:+ PyStr.repr_list (missing_columns (labels t))
    ∧ ∀ r, r ∈ COLUMN_MAPPING.*1 →
        (∀ h, h ∈ labels t → ¬ same_name h r) →
        PyStr.occurs_in (PyStr.repr r) msg.
Proof.
  intros Hb Ht Hr0 Hnone0.
  assert (∀ r, r ∈ COLUMN_MAPPING.*1 →
            (∀ h, h ∈ labels t → ¬ same_name h r) →
            r ∈ missing_columns (labels t)) as Hin.
  { intros r Hr Hnone. apply list_elem_of_filter. split; [|done].
    intros (h & Heq & Hh)%list_elem_of_fmap. by apply (Hnone h). }
  assert (missing_columns (labels t) ≠ []) as Hmissing.
  { intros Hnil. specialize (Hin r0 Hr0 Hnone0).
    rewrite Hnil in Hin. by apply elem_of_nil in Hin. }
  destruct (load_source_data_missing _ _ _ _ _ Hb Ht Hmissing)
    as (w' & Hload & Hfiles).
  eexists _, w'. split_and!; [done..|].
  intros r Hr Hnone. apply occurs_in_append_l, occurs_in_repr_list.
  by apply Hin.
Qed.

(** C4.  When every required column has a name in the header that agrees
    with it up to letter case and surrounding white space, the loader
    returns a frame; its columns are named by the canonical source names
    of the mapping, each once, the rows are those of the file, and the
    column under a canonical name holds the values of an actual column
    of that name. *)
Theorem loader_canonical_columns input_path w b t :
  files w !! input_path = Some b →
  decode_csv read_csv_bytes b = Ok t →
  NoDup (labels t) →
  (∀ r, r ∈ COLUMN_MAPPING.*1 →
     ∃ h, h ∈ labels t ∧ variant_of r h) →
  ∃ df w',
    load_source_data read_csv_bytes input_path w = (Ok df, w')
    ∧ files w' = files w
    ∧ labels df ≡ₚ ["Issue Key"; "Issue Type"; "Updated"; "Status";
                    "Resolved"]
    ∧ index df = index t
    ∧ ∀ r, r ∈ COLUMN_MAPPING.*1 →
        ∃ h s, h ∈ labels t ∧ same_name h r
               ∧ select t h = [s] ∧ select df r = [s].
Proof.
  intros Hb Ht Hnd Hall.
  assert (missing_columns (labels t) = []) as Hmissing.
  { apply filter_none. intros r Hr Hnot.
    destruct (Hall r Hr) as (h & Hh & Hsame%variant_same_name).
    apply Hnot. rewrite <- Hsame. by apply list_elem_of_fmap_2. }
  destruct (load_source_data_loaded read_csv_bytes _ _ _ _ Hb Ht Hmissing)
    as (w' & Hload & Hfiles).
  exists (loaded_frame t), w'. split_and!; [done..| |done|].
  { by apply loaded_labels. }
  intros r Hr. destruct (not_missing _ _ Hmissing Hr) as [h Hh].
  destruct (header_lookup_Some _ _ _ Hh) as [Hin Hsame].
  destruct (has_label_column _ _ Hin) as [s Hs].
  exists h, s. split_and!; [done..| |].
  - by apply select_unique.
  - apply select_unique; [by apply loaded_labels_NoDup|].
    by eapply loaded_column.
Qed.

(** ** The cleaner *)

(** C5.  On a frame with distinct labels that has the columns
    "Ticket ID" and "Closed Date", the cleaner returns a frame whose rows
    are the rows with a key, in their order: the index and every column
    but the two date columns are the original ones without the rows
    whose "Ticket ID" is missing; no key is missing in the result; and
    the row count drops by the number of missing keys. *)
Theorem cleaner_drops_rows_without_key df ids w :
  Dataset df → ("Ticket ID", ids) ∈ columns df →
  "Closed Date" ∈ labels df →
  ∃ df' w',
    validate_and_clean parse_datetime df w = (Ok df', w')
    ∧ files w' = files w
    ∧ index df' = rows_with_key ids (index df)
    ∧ labels df' = labels df
    ∧ (∀ l s, (l, s) ∈ columns df → l ≠ "Open Date" → l ≠ "Closed Date" →
         select df' l = [rows_with_key ids s])
    ∧ (∀ s, s ∈ select df' "Ticket ID" → Forall (λ c, isna c = false) s)
    ∧ len df' + length (filter (λ c, isna c = true) ids) = len df.
Proof.
  intros [Hnd Hrect] Hids Hclosed.
  assert (length ids = len df) as Hlen.
  { unfold rectangular in Hrect. rewrite Forall_forall in Hrect.
    apply (Hrect _ Hids). }
  pose proof (validate_and_clean_NoDup parse_datetime df w Hnd) as Hrun.
  rewrite (select_unique _ _ ids) in Hrun by done. cbv zeta in Hrun.
  rewrite <- Hlen, notna_mask_one in Hrun.
  rewrite (bool_decide_eq_true_2 ("Closed Date" ∈ labels df)) in Hrun
    by done.
  set (mask := notna <$> ids) in *.
  eexists _, _. split; [exact Hrun|].
  assert (∀ l s, (l, s) ∈ columns df → l ≠ "Open Date" →
            l ≠ "Closed Date" →
            select (mkFrame (keep mask (index df))
                      (cleaned_column parse_datetime mask <$> columns df)) l
            = [rows_with_key ids s]) as Hcols.
  { intros l s Hs Hopen Hclose. apply select_unique.
    - unfold labels. cbn [columns]. by rewrite cleaned_labels.
    - cbn [columns]. apply (list_elem_of_fmap_2' _ _ (l, s)); [done|].
      unfold cleaned_column. cbn [fst snd].
      rewrite !decide_False by done. by rewrite <- keep_rows_with_key. }
  split_and!.
  - rewrite files_logged. by destruct (bool_decide _).
  - apply keep_rows_with_key.
  - unfold labels. cbn [columns]. apply cleaned_labels.
  - exact Hcols.
  - intros s. rewrite (Hcols _ ids) by done.
    intros ->%list_elem_of_singleton.
    rewrite <- keep_rows_with_key. apply keep_notna_present.
  - unfold len. cbn [index]. by apply keep_notna_count.
Qed.


(** C10, amended.  On a frame with distinct labels that has no column
    "Closed Date" the cleaner raises a [KeyError].  No constant is named
    "Closed Date": the mapper's frame has that column exactly when its
    input has "Resolved", which the mapping renames, or "Closed Date"
    itself.  In the pipeline the frame of the loader always has
    "Resolved", so the cleaner finds the column. *)
Theorem cleaner_requires_closed_date :
  (∀ df w, NoDup (labels df) → "Closed Date" ∉ labels df →
     ∃ e w', validate_and_clean parse_datetime df w = (Raise e, w')
             ∧ is_KeyError e = true ∧ files w' = files w)
  ∧ dict_get CONSTANTS "Closed Date" = None
  ∧ dict_get COLUMN_MAPPING "Resolved" = Some "Closed Date"
  ∧ (∀ df w, ∃ df',
       apply_transformations df w
       = (Ok df', logged INFO "Phase 2: Applying transformations..." w)
       ∧ ("Closed Date" ∈ labels df'
          ↔ "Resolved" ∈ labels df ∨ "Closed Date" ∈ labels df))
  ∧ (∀ input_path w df1 w1,
       load_source_data read_csv_bytes input_path w = (Ok df1, w1) →
       "Resolved" ∈ labels df1).
Proof.
  split_and!; [|done|done| |].
  - intros df w Hnd Hnot.
    rewrite validate_and_clean_NoDup by done. cbv zeta.
    destruct (select df "Ticket ID") as [|s sel]; [by eexists _, _|].
    rewrite bool_decide_eq_false_2 by done. eexists _, _.
    split_and!; [done..|].
    by destruct (bool_decide _).
  - intros df w. eexists. split; [reflexivity|]. apply mapped_closed_date.
  - intros p w df1 w1 Hload.
    destruct (load_source_data_result read_csv_bytes p w) as (w' & Hres & _).
    rewrite Hload in Hres. injection Hres as Hres _. revert Hres.
    unfold loader_result. destruct (files w !! p) as [b|]; [|done].
    destruct (decode_csv read_csv_bytes b) as [t|e]; [|done].
    destruct (missing_columns (labels t)) as [|r ms] eqn:Hmissing; [|done].
    intros [= ->].
    assert ("Resolved" ∈ COLUMN_MAPPING.*1) as Hr
      by (by apply (bool_decide_unpack _); vm_compute).
    destruct (not_missing _ _ Hmissing Hr) as [h Hh].
    destruct (header_lookup_Some _ _ _ Hh) as [Hin _].
    destruct (has_label_column _ _ Hin) as [s Hs].
    eapply column_label, loaded_column; eauto.
Qed.

(** ** The writer *)

(** C2.  On a frame with distinct labels, whenever the writer succeeds the
    sheet it has written has exactly the eight final columns, in the
    final order, each one a column of the frame, so that every other
    column is dropped; with all eight present the projection returns such
    a sheet and the writer succeeds whenever the serialization does; and
    when a final column is absent the projection raises a [KeyError], the
    writer returns [False] and no file is written. *)
Theorem writer_emits_final_columns df output_path w :
  NoDup (labels df) →
  (∀ w', save_target_file excel_bytes df output_path w = (Ok true, w') →
     ∃ sheet xb,
       sheet.*1 = FINAL_COLUMN_ORDER
       ∧ (∀ c, c ∈ sheet → c ∈ columns df)
       ∧ excel_bytes output_path sheet = Ok xb
       ∧ files w' = <[output_path := xb]> (files w))
  ∧ ((∀ k, k ∈ FINAL_COLUMN_ORDER → k ∈ labels df) →
     ∃ sheet,
       getitem_list df FINAL_COLUMN_ORDER = Ok (mkFrame (index df) sheet)
       ∧ sheet.*1 = FINAL_COLUMN_ORDER
       ∧ ∀ xb, excel_bytes output_path sheet = Ok xb →
           ∃ w', save_target_file excel_bytes df output_path w
                 = (Ok true, w')
                 ∧ files w' = <[output_path := xb]> (files w))
  ∧ (∀ k, k ∈ FINAL_COLUMN_ORDER → k ∉ labels df →
     ∃ arg w',
       getitem_list df FINAL_COLUMN_ORDER = Raise (KeyError arg)
       ∧ save_target_file excel_bytes df output_path w = (Ok false, w')
       ∧ files w' = files w).
Proof.
  intros Hnd. split_and!.
  - intros w'. rewrite save_target_file_cases. cbv zeta.
    destruct (getitem_list _ _) as [dff|e] eqn:Hproj; [|done].
    destruct (excel_bytes _ _) as [xb|e] eqn:Hxb; [|done].
    intros [= <-].
    destruct (getitem_list_labels _ _ _ Hnd Hproj) as (Hl & _ & Hsub).
    by exists (columns dff), xb.
  - intros Hall.
    destruct (getitem_list df FINAL_COLUMN_ORDER) as [dff|e] eqn:Hproj.
    + destruct (getitem_list_labels _ _ _ Hnd Hproj) as (Hl & Hi & _).
      exists (columns dff). split; [by destruct dff; simplify_eq/=|].
      split; [done|]. intros xb Hxb.
      rewrite save_target_file_cases, Hproj. cbv zeta. rewrite Hxb.
      by eexists.
    + exfalso. revert Hproj. unfold getitem_list.
      destruct (filter _ _) as [|k ks] eqn:Hf; [done|]. intros _.
      assert (k ∈ filter (λ k, k ∉ labels df) FINAL_COLUMN_ORDER) as Hk
        by (rewrite Hf; left).
      apply list_elem_of_filter in Hk as [Hnot Hk]. by apply Hnot, Hall.
  - intros k Hk Hnot.
    destruct (getitem_list_missing df _ k Hk Hnot) as [arg Hproj].
    exists arg. rewrite save_target_file_cases, Hproj. by eexists.
Qed.

(** ** The orchestrator *)

(** C7.  The orchestrator never raises: an exception of the loader, the
    mapper or the cleaner is caught and the result is [False]; when the
    three stages return, the result is the writer's, which is [True] or
    [False] and never an exception, also when the projection on the final
    columns or the serialization fails. *)
Theorem orchestrator_never_raises input_path output_path df w :
  (∃ b w', save_target_file excel_bytes df output_path w = (Ok b, w'))
  ∧ match getitem_list df FINAL_COLUMN_ORDER with
    | Raise _ => ∃ w', save_target_file excel_bytes df output_path w
                       = (Ok false, w')
    | Ok df_final =>
        match excel_bytes output_path (columns df_final) with
        | Raise _ => ∃ w', save_target_file excel_bytes df output_path w
                           = (Ok false, w')
        | Ok _ => ∃ w', save_target_file excel_bytes df output_path w
                        = (Ok true, w')
        end
    end
  ∧ (∃ b w', run input_path output_path w = (Ok b, w'))
  ∧ run input_path output_path w =
    match load_source_data read_csv_bytes input_path w with
    | (Raise e, w1) =>
        (Ok false, logged ERROR ("Pipeline failed: " +:+ str_exn e) w1)
    | (Ok df1, w1) =>
        match apply_transformations df1 w1 with
        | (Raise e, w2) =>
            (Ok false, logged ERROR ("Pipeline failed: " +:+ str_exn e) w2)
        | (Ok df2, w2) =>
            match validate_and_clean parse_datetime df2 w2 with
            | (Raise e, w3) =>
                (Ok false,
                 logged ERROR ("Pipeline failed: " +:+ str_exn e) w3)
            | (Ok df3, w3) =>
                save_target_file excel_bytes df3 output_path w3
            end
        end
    end.
Proof.
  assert (∀ d w0, ∃ b w',
            save_target_file excel_bytes d output_path w0 = (Ok b, w'))
    as Hsave.
  { intros d w0. rewrite save_target_file_cases. cbv zeta.
    destruct (getitem_list _ _); [|by eauto].
    destruct (excel_bytes _ _); by eauto. }
  split_and!.
  - apply Hsave.
  - rewrite save_target_file_cases. cbv zeta.
    destruct (getitem_list _ _); [|by eauto].
    destruct (excel_bytes _ _); by eauto.
  - rewrite run_cases.
    destruct (load_source_data _ _ _) as [[df1|e] w1]; [|by eauto].
    destruct (apply_transformations _ _) as [[df2|e] w2]; [|by eauto].
    destruct (validate_and_clean _ _ _) as [[df3|e] w3]; [|by eauto].
    apply Hsave.
  - apply run_cases.
Qed.



End Claims.

(** * The claims on the sample files *)

Section Sample_runs.

Local Ltac evaluated := vm_compute; reflexivity.

Local Ltac is_variant pre body post :=
  exists pre, body, post; repeat split; vm_compute; reflexivity.

Local Ltac listed := by apply (bool_decide_unpack _); vm_compute.

(** The stages on the three tickets, evaluated. *)
Example tickets_read :
  Sample.read_csv_bytes utf_8 Sample.tickets_csv = Ok Sample.tickets_table.
Proof. evaluated. Qed.

Example tickets_load :
  (load_source_data Sample.read_csv_bytes "in.csv"
     (Sample.disk Sample.tickets_csv)).1 = Ok Sample.tickets_loaded.
Proof. evaluated. Qed.

Example tickets_map :
  (apply_transformations Sample.tickets_loaded Sample.no_files).1
  = Ok Sample.tickets_mapped.
Proof. evaluated. Qed.

Example tickets_clean :
  (validate_and_clean Sample.parse_datetime Sample.tickets_mapped
     Sample.no_files).1 = Ok Sample.tickets_cleaned.
Proof. evaluated. Qed.

Example tickets_run :
  let end_ := Sample.run "in.csv" "out.xlsx" (Sample.disk Sample.tickets_csv) in
  end_.1 = Ok true
  ∧ files end_.2 !! "out.xlsx"
    = Some (Sample.Workbook
              [ ("Ticket ID", [Str "ABC-1"; Str "ABC-3"]);
                ("Ticket Type", [Str "Bug"; Str "Bug"]);
                ("Open Date", [Timestamp 1704067200000000000; NaT]);
                ("Priority", [Str "NONE"; Str "NONE"]);
                ("Status", [Str "Open"; Str "Done"]);
                ("Application", [Str "HMOF"; Str "HMOF"]);
                ("Assignment Group",
                 [Str "HMH Support Group"; Str "HMH Support Group"]);
                ("Closed Date", [Str ""; Str ""]) ]).
Proof. split; evaluated. Qed.

(** A run on a path that has no file returns [False] and writes nothing. *)
Example absent_run :
  let end_ := Sample.run "in.csv" "out.xlsx" Sample.no_files in
  end_.1 = Ok false ∧ files end_.2 = ∅
  ∧ log end_.2
    = [ (INFO, "Phase 1: Reading input CSV file from in.csv");
        (ERROR, "File not found: in.csv");
        (ERROR, "Pipeline failed: Input file does not exist: in.csv") ].
Proof. repeat split; evaluated. Qed.


(** The cleaned tickets go to the sheet in the final order. *)
Lemma writer_emits_final_columns_witness :
  NoDup (labels Sample.tickets_cleaned)
  ∧ ∃ sheet,
      getitem_list Sample.tickets_cleaned FINAL_COLUMN_ORDER
      = Ok (mkFrame [0; 2] sheet)
      ∧ sheet.*1 = FINAL_COLUMN_ORDER.
Proof.
  assert (NoDup (labels Sample.tickets_cleaned)) as Hnd by listed.
  split; [exact Hnd|].
  destruct (writer_emits_final_columns Sample.excel_bytes
              Sample.tickets_cleaned "out.xlsx" Sample.no_files Hnd)
    as (_ & Hall & _).
  destruct Hall as (sheet & Hproj & Hlabels & _).
  - intros k Hk. apply list_elem_of_In in Hk. simpl in Hk.
    repeat (destruct Hk as [<-|Hk]; [listed|]). destruct Hk.
  - by exists sheet.
Defined.

(** The file without "Status" and "Resolved" is refused, and both are
    named. *)
Lemma loader_reports_all_missing_columns_witness :
  ∃ w',
    load_source_data Sample.read_csv_bytes "in.csv"
      (Sample.disk Sample.short_csv)
    = (Raise (ValueError "Missing required columns: ['Status', 'Resolved']"),
       w').
Proof.
  destruct (loader_reports_all_missing_columns Sample.read_csv_bytes
              "in.csv" (Sample.disk Sample.short_csv) Sample.short_csv
              (mkFrame [0]
                 [ ("issue key", [Str "ABC-1"]); ("Issue Type", [Str "Bug"]);
                   ("UPDATED", [Str "2024-01-01"]) ])
              "Status")
    as (msg & w' & Hload & _ & Hmsg & _).
  - evaluated.
  - evaluated.
  - listed.
  - intros h Hh. apply list_elem_of_In in Hh. simpl in Hh.
    repeat (destruct Hh as [<-|Hh]; [by vm_compute|]). destruct Hh.
  - exists w'. rewrite Hload, Hmsg. evaluated.
Defined.

(** The tickets load, whatever the case and the white space of the
    header. *)
Lemma loader_canonical_columns_witness :
  ∃ df w',
    load_source_data Sample.read_csv_bytes "in.csv"
      (Sample.disk Sample.tickets_csv) = (Ok df, w')
    ∧ labels df ≡ₚ ["Issue Key"; "Issue Type"; "Updated"; "Status";
                    "Resolved"]
    ∧ index df = [0; 1; 2].
Proof.
  destruct (loader_canonical_columns Sample.read_csv_bytes "in.csv"
              (Sample.disk Sample.tickets_csv) Sample.tickets_csv
              Sample.tickets_table)
    as (df & w' & Hload & _ & Hlabels & Hindex & _).
  - evaluated.
  - evaluated.
  - listed.
  - intros r Hr. apply list_elem_of_In in Hr. simpl in Hr.
    destruct Hr as [<-|[<-|[<-|[<-|[<-|[]]]]]].
    + exists " Issue key ". split; [listed|]. is_variant " " "Issue key" " ".
    + exists "ISSUE TYPE". split; [listed|]. is_variant "" "ISSUE TYPE" "".
    + exists "updated". split; [listed|]. is_variant "" "updated" "".
    + exists "Status ". split; [listed|]. is_variant "" "Status" " ".
    + exists "resolved". split; [listed|]. is_variant "" "resolved" "".
  - by exists df, w'.
Defined.

(** Of the three mapped tickets the one without key is dropped. *)
Lemma cleaner_drops_rows_without_key_witness :
  ∃ df' w',
    validate_and_clean Sample.parse_datetime Sample.tickets_mapped
      Sample.no_files = (Ok df', w')
    ∧ index df' = [0; 2]
    ∧ select df' "Status" = [[Str "Open"; Str "Done"]]
    ∧ len df' + 1 = 3.
Proof.
  destruct (cleaner_drops_rows_without_key Sample.parse_datetime
              Sample.tickets_mapped [Str "ABC-1"; NaN; Str "ABC-3"]
              Sample.no_files)
    as (df' & w' & Hrun & _ & Hindex & _ & Hcols & _ & Hcount).
  - split; [listed|]. unfold rectangular. by repeat constructor.
  - listed.
  - listed.
  - exists df', w'. split; [done|]. split; [exact Hindex|].
    split; [|exact Hcount].
    apply (Hcols "Status" [Str "Open"; Str "Open"; Str "Done"]);
      [listed|done..].
Defined.


(** The loaded tickets are renamed and get the three constants. *)
Lemma mapper_renames_and_injects_witness :
  ∃ df',
    apply_transformations Sample.tickets_loaded Sample.no_files
    = (Ok df', logged INFO "Phase 2: Applying transformations..."
                 Sample.no_files)
    ∧ columns df' = columns Sample.tickets_mapped.
Proof.
  destruct (mapper_renames_and_injects Sample.tickets_loaded Sample.no_files)
    as (df' & Hrun & _ & _ & Hcanonical).
  destruct Hcanonical as [Hcols _]; [reflexivity|].
  exists df'. split; [exact Hrun|]. rewrite Hcols. evaluated.
Defined.


(** The cleaner on a frame without "Closed Date". *)
Lemma cleaner_requires_closed_date_witness :
  ∃ e w',
    validate_and_clean Sample.parse_datetime
      (mkFrame [0] [("Ticket ID", [Str "ABC-1"])]) Sample.no_files
    = (Raise e, w')
    ∧ is_KeyError e = true.
Proof.
  destruct (cleaner_requires_closed_date Sample.read_csv_bytes
              Sample.parse_datetime) as (Hraise & _).
  destruct (Hraise (mkFrame [0] [("Ticket ID", [Str "ABC-1"])])
              Sample.no_files) as (e & w' & Hrun & He & _);
    [listed|listed|].
  by exists e, w'.
Defined.

(** C10 as stated fails: on a frame that never had a column "Resolved" the
    mapper injects the three constants, and the cleaner still raises the
    [KeyError] of the missing "Closed Date". *)
Lemma constants_do_not_supply_closed_date :
  ∃ df' w' w'',
    apply_transformations Sample.unresolved Sample.no_files = (Ok df', w')
    ∧ labels df' = [ "Ticket ID"; "Ticket Type"; "Open Date"; "Status";
                     "Priority"; "Application"; "Assignment Group" ]
    ∧ ("Closed Date" ∉ labels df')
    ∧ validate_and_clean Sample.parse_datetime df' w'
      = (Raise (KeyError "'Closed Date'"), w'').
Proof.
  eexists _, _, _. split; [reflexivity|]. split; [evaluated|].
  split; [listed|]. evaluated.
Qed.

End Sample_runs.

(** * Further properties of the stages *)

(** ** The loader *)

Section Loader_further.

Context {bytes : Type}.
Variable read_csv_bytes : encoding → bytes → result DataFrame.
Implicit Types (w : World (bytes := bytes)) (t df : DataFrame).

(** X1.  On a path that has no file the loader raises
    [FileNotFoundError] before it reads anything: the error is logged once,
    at level ERROR, the handler of the reading block is not entered, and
    the files stay as they are. *)
Theorem loader_absent_file file_path w :
  files w !! file_path = None →
  load_source_data read_csv_bytes file_path w
  = (Raise (FileNotFoundError
              ("Input file does not exist: " +:+ file_path)),
     mkWorld (files w)
       (log w ++ [ (INFO, "Phase 1: Reading input CSV file from "
                          +:+ file_path);
                   (ERROR, "File not found: " +:+ file_path) ])).
Proof.
  intros Hb. unfold load_source_data. rewrite logger_seq.
  unfold os_path_exists. unfold mbind at 1, M_bind at 1.
  rewrite files_logged, Hb, bool_decide_eq_false_2 by (by intros [? [=]]).
  cbn [negb]. rewrite logger_seq. unfold raise, logged. cbn [files log].
  by rewrite <- app_assoc.
Qed.

(** X2.  A file that is no UTF-8 and parses under Latin-1 loads: both the
    header and the columns are read under Latin-1, and the one warning of
    the fallback is logged, between the two messages of a load. *)
Theorem loader_latin1_fallback file_path w b t msg :
  files w !! file_path = Some b →
  read_csv_bytes utf_8 b = Raise (UnicodeDecodeError msg) →
  read_csv_bytes latin1 b = Ok t →
  (∀ r, r ∈ COLUMN_MAPPING.*1 → ∃ h, h ∈ labels t ∧ variant_of r h) →
  load_source_data read_csv_bytes file_path w
  = (Ok (loaded_frame t),
     mkWorld (files w)
       (log w ++ [ (INFO, "Phase 1: Reading input CSV file from "
                          +:+ file_path);
                   (WARNING, "UTF-8 decode failed, retrying with latin1.");
                   (INFO, "Successfully loaded " +:+ PyStr.of_nat (len t)
                          +:+ " rows.") ])).
Proof.
  intros Hb Hutf Hlat Hall.
  assert (missing_columns (labels t) = []) as Hmissing.
  { apply filter_none. intros r Hr Hnot.
    destruct (Hall r Hr) as (h & Hh & Hsame%variant_same_name).
    apply Hnot. rewrite <- Hsame. by apply list_elem_of_fmap_2. }
  assert (decode_csv read_csv_bytes b = Ok t) as Ht
    by (unfold decode_csv; by rewrite Hutf).
  unfold load_source_data. rewrite logger_seq.
  unfold os_path_exists. unfold mbind at 1, M_bind at 1.
  rewrite files_logged, Hb, bool_decide_eq_true_2 by eauto.
  cbn [negb]. unfold try_except.
  rewrite (bind_Ok _ _ _ (head 0 t) _
             (read_header_decoded _ _ (logged INFO _ _) b t Hb Ht)).
  rewrite head_labels, resolve_fold, missing_columns_lookup, Hmissing.
  cbn [app]. fold (resolved (labels t)). fold (normalization (labels t)).
  rewrite bool_decide_eq_false_2 by (by intros []).
  set (w0 := logged INFO _ w).
  assert (except_UnicodeDecodeError
            (read_csv read_csv_bytes file_path
               (Some (resolved (labels t))) None utf_8)
            (logger WARNING "UTF-8 decode failed, retrying with latin1.";;
             read_csv read_csv_bytes file_path
               (Some (resolved (labels t))) None latin1) w0
          = (Ok (mkFrame (index t)
                   (filter (λ c, c.1 ∈ resolved (labels t)) (columns t))),
             logged WARNING "UTF-8 decode failed, retrying with latin1." w0))
    as Hread.
  { unfold except_UnicodeDecodeError, try_except.
    rewrite (read_csv_file _ _ _ b), Hutf by done.
    rewrite logger_seq, (read_csv_file _ _ _ b), Hlat by done.
    by rewrite use_columns_resolved. }
  rewrite (bind_Ok _ _ _ _ _ Hread), logger_seq.
  unfold mret, M_ret, w0, logged, loaded_frame. cbn [files log].
  by rewrite <- !app_assoc.
Qed.

(** X3.  Only a decoding error of UTF-8 makes the loader try Latin-1: any
    other exception of the first read of the header is logged at level
    CRITICAL and raised again as it is, whatever a read under Latin-1
    would give. *)
Theorem loader_no_fallback_on_other_errors file_path w b e :
  files w !! file_path = Some b →
  read_csv_bytes utf_8 b = Raise e →
  (∀ msg, e ≠ UnicodeDecodeError msg) →
  load_source_data read_csv_bytes file_path w
  = (Raise e,
     mkWorld (files w)
       (log w ++ [ (INFO, "Phase 1: Reading input CSV file from "
                          +:+ file_path);
                   (CRITICAL, "Failed to read CSV file: " +:+ str_exn e) ])).
Proof.
  intros Hb Hutf Hother. unfold load_source_data. rewrite logger_seq.
  unfold os_path_exists. unfold mbind at 1, M_bind at 1.
  rewrite files_logged, Hb, bool_decide_eq_true_2 by eauto.
  cbn [negb]. unfold try_except.
  rewrite (bind_Raise _ _ _ e
             (logged INFO ("Phase 1: Reading input CSV file from "
                           +:+ file_path) w)).
  - rewrite logger_seq. unfold raise, logged. cbn [files log].
    by rewrite <- app_assoc.
  - unfold except_UnicodeDecodeError, try_except.
    rewrite (read_csv_file _ _ _ b), Hutf by done.
    destruct e; try done. by destruct (Hother msg).
Qed.

(** X4.  When several names of the header stand for one required column,
    the loader takes the column of the last of them. *)
Theorem loader_takes_last_match file_path w b t r h s before after :
  files w !! file_path = Some b →
  decode_csv read_csv_bytes b = Ok t →
  NoDup (labels t) →
  (∀ r, r ∈ COLUMN_MAPPING.*1 → ∃ h, h ∈ labels t ∧ variant_of r h) →
  r ∈ COLUMN_MAPPING.*1 →
  labels t = before ++ h :: after →
  same_name h r → (∀ h', h' ∈ after → ¬ same_name h' r) →
  (h, s) ∈ columns t →
  ∃ df w',
    load_source_data read_csv_bytes file_path w = (Ok df, w')
    ∧ select df r = [s].
Proof.
  intros Hb Ht Hnd Hall Hr Hsplit Hsame Hafter Hs.
  assert (missing_columns (labels t) = []) as Hmissing.
  { apply filter_none. intros r' Hr' Hnot.
    destruct (Hall r' Hr') as (h' & Hh' & Hsame'%variant_same_name).
    apply Hnot. rewrite <- Hsame'. by apply list_elem_of_fmap_2. }
  destruct (load_source_data_loaded read_csv_bytes _ _ _ _ Hb Ht Hmissing)
    as (w' & Hload & _).
  exists (loaded_frame t), w'. split; [done|].
  apply select_unique; [by apply loaded_labels_NoDup|].
  apply (loaded_column t r h); [done| |done].
  rewrite header_lookup_last, Hsplit, filter_app, filter_cons_True by done.
  rewrite (filter_none _ after) by done.
  by rewrite last_snoc.
Qed.

(** X5.  Whenever the loader returns a frame, the file was there and had
    every required column; the frame has the rows of the file, each
    required name as a label and no other label, and the files are as
    before. *)
Theorem loader_success_postcondition file_path w df w' :
  load_source_data read_csv_bytes file_path w = (Ok df, w') →
  files w' = files w
  ∧ (∃ b t, files w !! file_path = Some b
            ∧ decode_csv read_csv_bytes b = Ok t
            ∧ missing_columns (labels t) = []
            ∧ index df = index t)
  ∧ (∀ r, r ∈ COLUMN_MAPPING.*1 → r ∈ labels df)
  ∧ (∀ l, l ∈ labels df → l ∈ COLUMN_MAPPING.*1).
Proof.
  intros Hload.
  destruct (load_source_data_result read_csv_bytes file_path w)
    as (w1 & Hres & Hfiles).
  rewrite Hload in Hres. injection Hres as Hres <-. revert Hres.
  unfold loader_result. destruct (files w !! file_path) as [b|]; [|done].
  destruct (decode_csv read_csv_bytes b) as [t|e] eqn:Ht; [|done].
  destruct (missing_columns (labels t)) as [|r0 ms] eqn:Hmissing; [|done].
  intros [= ->]. split_and!; [done|by exists b, t| |apply loaded_label].
  intros r Hr. destruct (not_missing _ _ Hmissing Hr) as [h Hh].
  destruct (header_lookup_Some _ _ _ Hh) as [Hin _].
  destruct (has_label_column _ _ Hin) as [s Hs].
  eapply column_label, loaded_column; eauto.
Qed.

End Loader_further.

(** ** The mapper *)

Section Mapper_further.

Context {bytes : Type}.
Implicit Types (w : World (bytes := bytes)) (df d : DataFrame).

Lemma map_column_fixed f col cols :
  (∀ c, c ∈ cols → c.1 = col → f c.2 = c.2) → map_column f col cols = cols.
Proof.
  intros Hfix. unfold map_column. induction cols as [|[l s] cols IH]; [done|].
  rewrite fmap_cons, IH by (intros c Hc; apply Hfix; by right). f_equal.
  case_decide as Hl; [|done].
  pose proof (Hfix (l, s) ltac:(left) Hl) as Hs. cbn [fst snd] in *.
  by rewrite Hs.
Qed.

(** Assigning a constant to a column that holds it already changes
    nothing. *)
Lemma setitem_scalar_fixed d col v :
  col ∈ labels d → (∀ s, s ∈ select d col → s = replicate (len d) v) →
  setitem_scalar d col v = d.
Proof.
  intros Hin Hconst. unfold setitem_scalar, setitem, has_column.
  rewrite bool_decide_eq_true_2 by done. destruct d as [idx cols].
  cbn [index columns] in *. f_equal. apply map_column_fixed.
  intros [l s] Hc Hl. cbn [fst snd] in *. symmetry. apply Hconst.
  unfold select. cbn [columns]. apply (list_elem_of_fmap_2' _ _ (l, s)); [|done].
  by apply list_elem_of_filter.
Qed.

Lemma rename_fixed g d :
  (∀ l, l ∈ labels d → default l (g l) = l) → rename g d = d.
Proof.
  intros Hfix. unfold rename. destruct d as [idx cols]. cbn [index columns].
  f_equal. unfold labels in Hfix. cbn [columns] in Hfix.
  induction cols as [|[l s] cols IH]; [done|].
  rewrite fmap_cons, IH by (intros l' Hl'; apply Hfix; by right).
  cbn [fst snd]. by rewrite Hfix by left.
Qed.

(** A label that the mapping has produced is not renamed again. *)
Lemma target_fixed l :
  let l' := default l (dict_get COLUMN_MAPPING l) in
  default l' (dict_get COLUMN_MAPPING l') = l'.
Proof.
  cbv zeta. destruct (dict_get COLUMN_MAPPING l) as [x|] eqn:Hl.
  - assert (x ∈ COLUMN_MAPPING.*2) as Hx.
    { revert Hl. generalize COLUMN_MAPPING.
      intros m. induction m as [|[k v] m IH]; [done|]. simpl.
      case_decide; [intros [= ->]; left|right; auto]. }
    cbn [default]. apply list_elem_of_In in Hx. simpl in Hx.
    by repeat (destruct Hx as [<-|Hx]; [done|]).
  - cbn [default]. by rewrite Hl.
Qed.

Lemma labels_setitem d col s :
  labels (setitem d col s)
  = if decide (col ∈ labels d) then labels d else labels d ++ [col].
Proof.
  unfold setitem, has_column, labels. cbn [columns].
  case_bool_decide as Hin.
  - rewrite decide_True by done. apply map_column_labels.
  - rewrite decide_False by done. by rewrite fmap_app.
Qed.

Lemma labels_rename g d :
  labels (rename g d) = (λ l, default l (g l)) <$> labels d.
Proof.
  unfold labels, rename. cbn [columns]. rewrite <- !list_fmap_compose.
  by apply list_fmap_ext.
Qed.

Lemma rectangular_setitem d col s :
  rectangular d → length s = len d → rectangular (setitem d col s).
Proof.
  intros Hrect Hlen. unfold rectangular, setitem, len. cbn [index columns].
  destruct (has_column d col).
  - unfold map_column. apply Forall_fmap. eapply Forall_impl; [exact Hrect|].
    intros [l s0] Hs0. simpl in *. by case_decide.
  - apply Forall_app. split; [done|]. by constructor.
Qed.

Lemma rectangular_rename g d : rectangular d → rectangular (rename g d).
Proof.
  unfold rectangular, rename, len. cbn [index columns]. intros Hrect.
  apply Forall_fmap. eapply Forall_impl; [exact Hrect|]. by intros [l s].
Qed.

(** Appending in turn the names that are not there yet. *)
Lemma append_fresh (L cs : list string) :
  NoDup cs →
  foldl (λ L c, if decide (c ∈ L) then L else L ++ [c]) L cs
  = L ++ filter (λ c, c ∉ L) cs.
Proof.
  revert L. induction cs as [|c cs IH]; intros L Hnd.
  { by rewrite filter_nil, app_nil_r. }
  apply NoDup_cons in Hnd as [Hc Hnd]. cbn [foldl]. rewrite filter_cons.
  destruct (decide (c ∈ L)) as [Hin|Hnot].
  - rewrite decide_False by (by intros H; apply H). by apply IH.
  - rewrite decide_True by done. rewrite IH by done.
    rewrite <- app_assoc. cbn [app]. do 2 f_equal.
    clear IH Hnd. induction cs as [|c' cs IH]; [done|].
    apply not_elem_of_cons in Hc as [Hne Hc]. rewrite !filter_cons.
    rewrite IH by done.
    destruct (decide (c' ∈ L)) as [Hin'|Hnot'].
    + rewrite decide_False by (intros H; apply H, elem_of_app; by left).
      by rewrite decide_False by (by intros H; apply H).
    + rewrite decide_True; [by rewrite decide_True|].
      intros [?|?%list_elem_of_singleton]%elem_of_app; congruence.
Qed.

(** X6.  The mapper is idempotent: mapping the frame it has returned
    returns that frame again, whatever the columns of the first frame
    were. *)
Theorem mapper_idempotent df w w' :
  ∃ df',
    apply_transformations df w
    = (Ok df', logged INFO "Phase 2: Applying transformations..." w)
    ∧ apply_transformations df' w'
      = (Ok df', logged INFO "Phase 2: Applying transformations..." w').
Proof.
  eexists. split; [reflexivity|].
  unfold apply_transformations. rewrite logger_seq. unfold mret, M_ret.
  do 2 f_equal. cbn [foldl CONSTANTS fst snd].
  set (d0 := rename (dict_get COLUMN_MAPPING) df).
  set (d1 := setitem_scalar d0 "Priority" (Str "NONE")).
  set (d2 := setitem_scalar d1 "Application" (Str "HMOF")).
  set (d3 := setitem_scalar d2 "Assignment Group" (Str "HMH Support Group")).
  assert (rename (dict_get COLUMN_MAPPING) d3 = d3) as ->.
  { apply rename_fixed. intros l.
    unfold d3, d2, d1, setitem_scalar. rewrite !elem_labels_setitem.
    unfold d0. rewrite labels_rename.
    intros [[[(l0 & -> & _)%list_elem_of_fmap| ->]| ->]| ->];
      [apply target_fixed|done..]. }
  assert (∀ d col v s, s ∈ select (setitem_scalar d col v) col →
            len d = len d3 → s = replicate (len d3) v) as Hconst.
  { intros d col v s Hs <-. exact (select_setitem_same _ _ _ _ Hs). }
  rewrite (setitem_scalar_fixed d3 "Priority").
  - rewrite (setitem_scalar_fixed d3 "Application").
    + apply setitem_scalar_fixed.
      * unfold d3, setitem_scalar. rewrite elem_labels_setitem. by right.
      * intros s Hs. by apply (Hconst d2 _ _ _ Hs).
    + unfold d3, d2, setitem_scalar. rewrite !elem_labels_setitem.
      by left; right.
    + unfold d3. rewrite select_setitem_scalar_other by done.
      intros s Hs. by apply (Hconst d1 _ _ _ Hs).
  - unfold d3, d2, d1, setitem_scalar. rewrite !elem_labels_setitem.
    by left; left; right.
  - unfold d3, d2. rewrite !select_setitem_scalar_other by done.
    intros s Hs. by apply (Hconst d0 _ _ _ Hs).
Qed.

(** X7.  The mapper removes and reorders no column.  The labels of its
    frame are the renamed labels of the input, in their order, followed by
    the names of the constants that are not among them; a column whose
    label is no constant holds what it held; and a frame whose columns
    have one cell per row stays so. *)
Theorem mapper_keeps_columns df w :
  ∃ df',
    apply_transformations df w
    = (Ok df', logged INFO "Phase 2: Applying transformations..." w)
    ∧ (let renamed :=
         (λ l, default l (dict_get COLUMN_MAPPING l)) <$> labels df in
       labels df' = renamed ++ filter (λ c, c ∉ renamed) CONSTANTS.*1)
    ∧ (∀ l, l ∉ CONSTANTS.*1 →
         select df' l = select (rename (dict_get COLUMN_MAPPING) df) l)
    ∧ (rectangular df → rectangular df').
Proof.
  eexists. split; [reflexivity|]. cbn [foldl CONSTANTS fst snd].
  set (d0 := rename (dict_get COLUMN_MAPPING) df). split_and!.
  - cbv zeta. rewrite <- labels_rename. fold d0.
    rewrite <- append_fresh by (by apply (bool_decide_unpack _); vm_compute).
    unfold setitem_scalar. by rewrite !labels_setitem.
  - intros l Hl. rewrite !select_setitem_scalar_other; [done|..];
      intros ->; apply Hl; by apply (bool_decide_unpack _); vm_compute.
  - intros Hrect. unfold setitem_scalar.
    repeat (apply rectangular_setitem; [|by rewrite length_replicate]).
    by apply rectangular_rename.
Qed.

End Mapper_further.
